(** * Work-order signing and verification (utility/signature.py)

    A shallow embedding of [ClientSignature] from
    [examples/common/python/utility/signature.py]: the payload validator, the
    in-data encryptor, the two hash builders, the request signer and the
    response verifier, together with the fragment of Python's dynamic
    behaviour on JSON values that these methods exercise.

    Conventions.
    - A Python [str] is a [string] holding its UTF-8 encoding; a Python
      [bytes] (or byte array) is a [list byte].  [encode] is
      [s.encode('UTF-8')].  A [str] with a lone surrogate, such as
      [json.loads] yields for the escape \ud800, has no UTF-8 encoding:
      it is a value of its own, [JSur], whose [string] holds the
      generalized encoding (three bytes for the surrogate), and encoding
      it raises [UnicodeEncodeError].  [JStr] is a [str] without one.
    - A value produced by [json.loads] is a [json]; numbers are integers
      (fractional JSON numbers are outside the model).  A [dict] is an
      association list in insertion order; lookups and stores act on the
      first binding of a key.
    - A Python exception is a [Raise] outcome of [result].
    - The cryptographic module, the [json] module and the configuration
      file are not part of the embedded file; they are the fields of the
      classes [Crypto] and [JsonModule] and of the record [ClientSignature].
      Every field that is a function is total: the only primitive whose
      exception the source handles is [SIG_PublicKey]. *)

From Stdlib Require Import String Ascii Strings.Byte List ZArith Bool Lia.
From Stdlib Require Import Permutation Sorted.
Import ListNotations.
Local Open Scope string_scope.
Local Open Scope Z_scope.

Set Implicit Arguments.
Set Warnings "-register-all".

(** ** Values *)

Definition bytes := list byte.

(** [JStr s] is a [str] that has a UTF-8 encoding, [s]; [JSur s] is a
    [str] with at least one lone surrogate, [s] its generalized encoding.
    The two kinds behave alike except under [encode]. *)
Inductive json : Type :=
| JNull
| JBool (b : bool)
| JNum (z : Z)
| JStr (s : string)
| JSur (s : string)
| JArr (l : list json)
| JObj (o : list (string * json)).

Inductive exn : Type :=
| KeyError (key : string)
| TypeError
| AttributeError (attr : string)
| UnicodeEncodeError
| JSONDecodeError
| CryptoError
| Unmodelled.

Inductive result (A : Type) : Type :=
| Ok (a : A)
| Raise (e : exn).
Arguments Ok {A} a.
Arguments Raise {A} e.

Module Res.
Definition bind {A B} (r : result A) (k : A -> result B) : result B :=
  match r with
  | Ok a => k a
  | Raise e => Raise e
  end.

Fixpoint mapM {A B} (f : A -> result B) (l : list A) : result (list B) :=
  match l with
  | [] => Ok []
  | x :: l' => bind (f x) (fun y => bind (mapM f l') (fun ys => Ok (y :: ys)))
  end.
End Res.

Declare Scope res_scope.
Delimit Scope res_scope with res.
Notation "x <- c ;; k" := (Res.bind c (fun x => k))
  (at level 61, c at next level, right associativity) : res_scope.

(** ** Strings and bytes *)

Definition encode (s : string) : bytes := list_byte_of_string s.

Fixpoint bytes_eqb (a b : bytes) : bool :=
  match a, b with
  | [], [] => true
  | x :: a', y :: b' => Byte.eqb x y && bytes_eqb a' b'
  | _, _ => false
  end.

Definition hex_digit (n : N) : ascii :=
  match n with
  | 0 => "0" | 1 => "1" | 2 => "2" | 3 => "3" | 4 => "4" | 5 => "5"
  | 6 => "6" | 7 => "7" | 8 => "8" | 9 => "9" | 10 => "a" | 11 => "b"
  | 12 => "c" | 13 => "d" | 14 => "e" | _ => "f"
  end%N%char.

(** [''.join(format(i, '02x') for i in b)] *)
Fixpoint hex_of_bytes (b : bytes) : string :=
  match b with
  | [] => ""
  | x :: b' =>
      let n := Byte.to_N x in
      String (hex_digit (n / 16)) (String (hex_digit (n mod 16)) (hex_of_bytes b'))
  end.

(** [p in s] for two strings: substring test. *)
Fixpoint str_contains (p s : string) : bool :=
  String.prefix p s ||
  match s with
  | EmptyString => false
  | String _ s' => str_contains p s'
  end.

Definition is_continuation (c : ascii) : bool :=
  let n := N_of_ascii c in (128 <=? n)%N && (n <? 192)%N.

Definition starts_with_continuation (s : string) : bool :=
  match s with
  | EmptyString => false
  | String c _ => is_continuation c
  end.

(** A surrogate U+D800..U+DFFF in the generalized encoding: the byte 0xED
    followed by a byte in 0xA0..0xBF. *)
Fixpoint has_surrogate (s : string) : bool :=
  match s with
  | EmptyString => false
  | String c s' =>
      ((N_of_ascii c =? 237)%N &&
       match s' with
       | String d _ => (160 <=? N_of_ascii d)%N && (N_of_ascii d <? 192)%N
       | EmptyString => false
       end)
      || has_surrogate s'
  end.

(** The characters of a [str], each as a one-character [str]: the UTF-8
    text is cut before every byte that is not a continuation byte. *)
Fixpoint code_points (s : string) : list string :=
  match s with
  | EmptyString => []
  | String c s' =>
      match code_points s' with
      | ch :: r =>
          if starts_with_continuation s' then String c ch :: r
          else String c "" :: ch :: r
      | [] => [String c ""]
      end
  end.

(** ** Python operations on JSON values *)

Fixpoint lookup (k : string) (o : list (string * json)) : option json :=
  match o with
  | [] => None
  | (k', v) :: o' => if String.eqb k k' then Some v else lookup k o'
  end.

(** [d[k] = v] on a dict: overwrite in place, or append a new key. *)
Fixpoint store (k : string) (v : json) (o : list (string * json))
  : list (string * json) :=
  match o with
  | [] => [(k, v)]
  | (k', v') :: o' =>
      if String.eqb k k' then (k', v) :: o' else (k', v') :: store k v o'
  end.

(** The [str] with the given (generalized) encoding. *)
Definition str_value (s : string) : json :=
  if has_surrogate s then JSur s else JStr s.

Definition is_str (k : string) (v : json) : bool :=
  match v with
  | JStr s => String.eqb s k
  | _ => false
  end.

(** [x[k]] for a string subscript [k]. *)
Definition py_getitem (x : json) (k : string) : result json :=
  match x with
  | JObj o =>
      match lookup k o with
      | Some v => Ok v
      | None => Raise (KeyError k)
      end
  | _ => Raise TypeError
  end.

(** [x[k] = v] for a string subscript [k]. *)
Definition py_setitem (x : json) (k : string) (v : json) : result json :=
  match x with
  | JObj o => Ok (JObj (store k v o))
  | _ => Raise TypeError
  end.

(** [k in x] for a string [k]. *)
Definition py_contains (k : string) (x : json) : result bool :=
  match x with
  | JObj o => Ok (match lookup k o with Some _ => true | None => false end)
  | JArr l => Ok (existsb (is_str k) l)
  | JStr s | JSur s => Ok (str_contains k s)
  | _ => Raise TypeError
  end.

(** [x.keys()] *)
Definition py_keys (x : json) : result (list string) :=
  match x with
  | JObj o => Ok (map fst o)
  | _ => Raise (AttributeError "keys")
  end.

(** [x.encode('UTF-8')] *)
Definition py_encode (x : json) : result bytes :=
  match x with
  | JStr s => Ok (encode s)
  | JSur _ => Raise UnicodeEncodeError
  | _ => Raise (AttributeError "encode")
  end.

(** Truth value of [x], as tested by [not x]. *)
Definition py_truthy (x : json) : bool :=
  match x with
  | JNull => false
  | JBool b => b
  | JNum z => negb (z =? 0)
  | JStr s | JSur s => negb (String.eqb s "")
  | JArr l => match l with [] => false | _ => true end
  | JObj o => match o with [] => false | _ => true end
  end.

(** The sequence visited by [for obj in x]. *)
Definition py_iter (x : json) : result (list json) :=
  match x with
  | JArr l => Ok l
  | JObj o => Ok (map (fun kv => str_value (fst kv)) o)
  | JStr s => Ok (map JStr (code_points s))
  | JSur s => Ok (map str_value (code_points s))
  | _ => Raise TypeError
  end.

(** [x < 0] *)
Definition py_lt_zero (x : json) : result bool :=
  match x with
  | JNum z => Ok (z <? 0)
  | JBool _ => Ok false
  | _ => Raise TypeError
  end.

(** ** [list.sort(key=lambda x: x['index'])]

    Python's sort is stable and ascending; a stable sort has one possible
    result, so stable insertion stands for it.  The keys are computed for
    every element first.  With fewer than two elements nothing is
    compared.  Otherwise integer (and boolean) keys compare as numbers and
    string keys compare by code point; keys of any mixture of kinds, or
    [null] or dict keys, make some comparison raise [TypeError].  Keys that
    are all arrays are outside the model. *)

Section StableSort.
Variable K : Type.
Variable leb : K -> K -> bool.

Fixpoint insert (x : K * json) (l : list (K * json)) : list (K * json) :=
  match l with
  | [] => [x]
  | y :: l' => if leb (fst x) (fst y) then x :: l else y :: insert x l'
  end.

Definition isort (l : list (K * json)) : list (K * json) :=
  fold_right insert [] l.
End StableSort.

Definition num_key (v : json) : option Z :=
  match v with
  | JNum z => Some z
  | JBool b => Some (if b then 1 else 0)
  | _ => None
  end.

Definition str_key (v : json) : option string :=
  match v with
  | JStr s | JSur s => Some s
  | _ => None
  end.

Definition is_arr (v : json) : bool :=
  match v with
  | JArr _ => true
  | _ => false
  end.

Fixpoint all_some {A} (l : list (option A)) : option (list A) :=
  match l with
  | [] => Some []
  | Some a :: l' =>
      match all_some l' with
      | Some r => Some (a :: r)
      | None => None
      end
  | None :: _ => None
  end.

Definition sort_with_keys (keys : list json) (l : list json) : result (list json) :=
  match l with
  | [] | [_] => Ok l
  | _ =>
      match all_some (map num_key keys) with
      | Some zs => Ok (map snd (isort Z.leb (combine zs l)))
      | None =>
          match all_some (map str_key keys) with
          | Some ss => Ok (map snd (isort String.leb (combine ss l)))
          | None => if forallb is_arr keys then Raise Unmodelled else Raise TypeError
          end
      end
  end.

Definition py_sort_by_index (x : json) : result json :=
  match x with
  | JArr l =>
      (keys <- Res.mapM (fun item => py_getitem item "index") l ;;
       sorted <- sort_with_keys keys l ;;
       Ok (JArr sorted))%res
  | _ => Raise (AttributeError "sort")
  end.

(** ** External collaborators *)

(** [crypto.crypto] and [utility.encrypt_data].  [privkey] and [pubkey] are
    the signing and verifying key objects; [GetPublicKey_Serialize pk] is
    [pk.GetPublicKey().Serialize()].  [SIG_PublicKey] raises on a key it
    cannot parse.  [VerifySignature] answers 1 for a valid signature, 0 for
    an invalid one and another number for a signature it cannot parse. *)
Class Crypto : Type := {
  privkey : Type;
  pubkey : Type;
  compute_message_hash : bytes -> bytes;
  byte_array_to_base64 : bytes -> string;
  base64_to_byte_array : string -> bytes;
  random_bit_string : nat -> bytes;
  encrypt_data : bytes -> option bytes -> option bytes -> bytes;
  GetPublicKey_Serialize : privkey -> string;
  SignMessage : privkey -> bytes -> bytes;
  SIG_PublicKey : string -> result pubkey;
  VerifySignature : pubkey -> bytes -> bytes -> Z
}.

(** [json.loads] and [json.dumps]. *)
Class JsonModule : Type := {
  json_loads : string -> result json;
  json_dumps : json -> string
}.

(** The [WorkerConfig] table of [tcs_config.toml]. *)
Record WorkerConfig : Type := {
  HashingAlgorithm : string;
  SigningAlgorithm : string
}.

(** [worker.worker_details]: the worker object handed to the signer and the
    verifier. *)
Record WorkerDetails : Type := {
  hashing_algorithm : string;
  signing_algorithm : string;
  worker_encryption_key : string;
  worker_typedata_verification_key : string
}.

(** [error_code.error_status.SignatureStatus] *)
Inductive SignatureStatus : Type :=
| PASSED
| FAILED
| INVALID_SIGNATURE_FORMAT
| INVALID_VERIFICATION_KEY
| ERROR_RESPONSE.

(** ** Effects: the logger, the instance attributes, the verification call *)

Inductive level : Type := ERROR | INFO | DEBUG.

(** [Log] and [LogExn] are the calls made on [logger], with the format
    string and its arguments.  [VerifyCall] is a ghost record of the call
    [_verifying_key.VerifySignature(final_hash, decoded_signature)]. *)
Inductive event : Type :=
| Log (lvl : level) (fmt : string) (args : list json)
| LogExn (lvl : level) (fmt : string) (e : exn)
| VerifyCall (final_hash decoded_signature : bytes).


(** No of bytes of encrypted session key to encrypt data *)
Definition NO_OF_BYTES : nat := 16.

Definition param_pool : list string :=
  ["requesterNonce"; "workOrderId"; "workerId"; "requesterId"; "inData"].

Definition newline : string := String (ascii_of_nat 10) "".

Section ClientSignature.
Context {crypto : Crypto} {jsonm : JsonModule}.

(** The attributes of a [ClientSignature] instance; [self.param_pool] is
    the constant [param_pool]. *)
Record ClientSignature : Type := {
  private_key : option privkey;
  public_key : option string;
  tcs_worker : WorkerConfig
}.

Record world : Type := {
  self : ClientSignature;
  trace : list event
}.

(** Computations that read and write the instance, append to the trace
    and may raise. *)
Definition M (A : Type) : Type := world -> result A * world.

Definition ret {A} (a : A) : M A := fun w => (Ok a, w).

Definition bind {A B} (c : M A) (k : A -> M B) : M B :=
  fun w =>
    match c w with
    | (Ok a, w') => k a w'
    | (Raise e, w') => (Raise e, w')
    end.

Definition lift {A} (r : result A) : M A := fun w => (r, w).

Definition emit (ev : event) : M unit :=
  fun w => (Ok tt, {| self := self w; trace := trace w ++ [ev] |}).

Definition get_self : M ClientSignature := fun w => (Ok (self w), w).

Definition set_self (s : ClientSignature) : M unit :=
  fun w => (Ok tt, {| self := s; trace := trace w |}).

(** [__init__], given the table read from [tcs_config.toml], with nothing
    logged yet. *)
Definition init (config : WorkerConfig) : world :=
  {| self := {| private_key := None; public_key := None; tcs_worker := config |};
     trace := [] |}.

(** The world after one more event. *)
Definition with_event (w : world) (ev : event) : world :=
  {| self := self w; trace := trace w ++ [ev] |}.
End ClientSignature.

Declare Scope m_scope.
Delimit Scope m_scope with m.
Notation "x <- c ;; k" := (bind c (fun x => k))
  (at level 61, c at next level, right associativity) : m_scope.
Notation "c ;;; k" := (bind c (fun _ => k))
  (at level 61, right associativity) : m_scope.

Section Methods.
Context {crypto : Crypto} {jsonm : JsonModule}.
Local Open Scope m_scope.

(** *** [__payload_json_check] *)

(** [for param in self.param_pool: ...] with the running [param_valid]. *)
Fixpoint check_params (pool : list string) (data_params : json)
    (param_valid : bool) : M bool :=
  match pool with
  | [] => ret param_valid
  | param :: pool' =>
      present <- lift (py_contains param data_params) ;;
      if negb present then
        emit (Log ERROR
          "ERROR: Worker Order Submit Json does not have the required parameter: %s"
          [JStr param]) ;;;
        check_params pool' data_params false
      else check_params pool' data_params param_valid
  end.

(** ['data' not in obj or not obj["data"] or 'index' not in obj] *)
Definition indata_defect (obj : json) : result bool :=
  (has_data <- py_contains "data" obj ;;
   if negb has_data then Ok true
   else
     d <- py_getitem obj "data" ;;
     if negb (py_truthy d) then Ok true
     else
       has_index <- py_contains "index" obj ;;
       Ok (negb has_index))%res.

(** [for obj in i_obj: ...] with the running [param_valid]. *)
Fixpoint check_indata (objs : list json) (param_valid : bool) : M bool :=
  match objs with
  | [] => ret param_valid
  | obj :: objs' =>
      defect <- lift (indata_defect obj) ;;
      if defect then
        emit (Log ERROR
          "ERROR: Worker Order Submit Json does not have the required parameter in InData"
          []) ;;;
        check_indata objs' false
      else check_indata objs' param_valid
  end.

Definition payload_json_check (json_data : string) : M bool :=
  data <- lift (json_loads json_data) ;;
  has_params <- lift (py_contains "params" data) ;;
  if negb has_params then
    emit (Log ERROR
      "ERROR: Worker Order Submit Json does not have the required params" []) ;;;
    ret false
  else
    data_params <- lift (py_getitem data "params") ;;
    param_valid <- check_params param_pool data_params true ;;
    if param_valid then
      i_obj <- lift (py_getitem data_params "inData") ;;
      objs <- lift (py_iter i_obj) ;;
      check_indata objs param_valid
    else ret param_valid.

(** *** [__encrypt_workorder_indata] *)

(** The body of [for item in indata_objects]; the stored
    [input_json_params['inData'][i]] is [item] itself. *)
Definition encrypt_item (session_key session_iv : bytes)
    (data_key data_iv : option bytes) (item : json) : M json :=
  data_v <- lift (py_getitem item "data") ;;
  data <- lift (py_encode data_v) ;;
  e_key_v <- lift (py_getitem item "encryptedDataEncryptionKey") ;;
  e_key <- lift (py_encode e_key_v) ;;
  if bytes_eqb e_key [] || bytes_eqb e_key (encode "null") then
    let enc_data := encrypt_data data (Some session_key) (Some session_iv) in
    item' <- lift (py_setitem item "data" (JStr (byte_array_to_base64 enc_data))) ;;
    emit (Log DEBUG "encrypted indata - %s"
            [JStr (byte_array_to_base64 enc_data)]) ;;;
    ret item'
  else if bytes_eqb e_key (encode "-") then
    lift (py_setitem item "data" (JStr (byte_array_to_base64 data)))
  else
    let enc_data := encrypt_data data data_key data_iv in
    item' <- lift (py_setitem item "data" (JStr (byte_array_to_base64 enc_data))) ;;
    emit (Log DEBUG "encrypted indata - %s"
            [JStr (byte_array_to_base64 enc_data)]) ;;;
    ret item'.

Fixpoint encrypt_items (session_key session_iv : bytes)
    (data_key data_iv : option bytes) (items : list json) : M (list json) :=
  match items with
  | [] => ret []
  | item :: items' =>
      item' <- encrypt_item session_key session_iv data_key data_iv item ;;
      rest <- encrypt_items session_key session_iv data_key data_iv items' ;;
      ret (item' :: rest)
  end.

(** Returns [input_json_params] as the call leaves it. *)
Definition encrypt_workorder_indata (input_json_params : json)
    (session_key session_iv : bytes) (worker_encryption_key : string)
    (data_key data_iv : option bytes) : M json :=
  indata_objects <- lift (py_getitem input_json_params "inData") ;;
  indata_objects <- lift (py_sort_by_index indata_objects) ;;
  input_json_params <- lift (py_setitem input_json_params "inData" indata_objects) ;;
  emit (Log INFO "Encrypting Workorder Data" []) ;;;
  items <- lift (py_iter indata_objects) ;;
  items' <- encrypt_items session_key session_iv data_key data_iv items ;;
  input_json_params <- lift (py_setitem input_json_params "inData" (JArr items')) ;;
  emit (Log DEBUG "Workorder InData after encryption: %s" [JArr items']) ;;;
  ret input_json_params.

(** *** [__calculate_hash_on_concatenated_string] *)

Definition calculate_hash_on_concatenated_string (input_json_params : json)
    (nonce_hash : bytes) : result string :=
  (workorder_id_v <- py_getitem input_json_params "workOrderId" ;;
   workorder_id <- py_encode workorder_id_v ;;
   worker_id_v <- py_getitem input_json_params "workerId" ;;
   worker_id <- py_encode worker_id_v ;;
   has_workload <- py_contains "workloadId" input_json_params ;;
   workload_id <-
     (if has_workload then
        workload_id_v <- py_getitem input_json_params "workloadId" ;;
        py_encode workload_id_v
      else Ok (encode "")) ;;
   requester_id_v <- py_getitem input_json_params "requesterId" ;;
   requester_id <- py_encode requester_id_v ;;
   let concat_string :=
     (nonce_hash ++ workorder_id ++ worker_id ++ workload_id ++ requester_id)%list in
   let hash_1 := compute_message_hash concat_string in
   Ok (byte_array_to_base64 hash_1))%res.

(** *** [__calculate_datahash] *)

(** The body of [for item in data_objects], up to the base64 digest that
    is appended to [hash_str]. *)
Definition item_hash_base64 (item : json) : result string :=
  (has_datahash <- py_contains "dataHash" item ;;
   datahash <-
     (if has_datahash then
        datahash_v <- py_getitem item "dataHash" ;;
        py_encode datahash_v
      else Ok (encode "")) ;;
   data_v <- py_getitem item "data" ;;
   data <- py_encode data_v ;;
   e_key_v <- py_getitem item "encryptedDataEncryptionKey" ;;
   e_key <- py_encode e_key_v ;;
   iv_v <- py_getitem item "iv" ;;
   iv <- py_encode iv_v ;;
   let concat_string := (datahash ++ data ++ e_key ++ iv)%list in
   let hash := compute_message_hash concat_string in
   Ok (byte_array_to_base64 hash))%res.

Fixpoint datahash_loop (items : list json) (hash_str : string) : result string :=
  match items with
  | [] => Ok hash_str
  | item :: items' =>
      (h <- item_hash_base64 item ;;
       datahash_loop items' (hash_str ++ h))%res
  end.

Definition calculate_datahash (data_objects : json) : result string :=
  (items <- py_iter data_objects ;;
   datahash_loop items "")%res.

(** *** [__generate_signature] *)

Definition generate_signature (hash : bytes) (private_key : privkey) : M string :=
  s <- get_self ;;
  set_self {| private_key := Some private_key;
              public_key := Some (GetPublicKey_Serialize private_key);
              tcs_worker := tcs_worker s |} ;;;
  let signature_result := SignMessage private_key hash in
  let signature_base64 := byte_array_to_base64 signature_result in
  ret signature_base64.

(** *** [generate_client_signature]

    [None] is the Python [None]; [Some s] is the signed request string. *)

Definition generate_client_signature (input_json_str : string)
    (worker : WorkerDetails) (private_key : privkey)
    (session_key session_iv encrypted_session_key : bytes)
    (data_key data_iv : option bytes) : M (option string) :=
  valid <- payload_json_check input_json_str ;;
  if negb valid then
    emit (Log ERROR "ERROR: Signing the request failed" []) ;;;
    ret None
  else
  s <- get_self ;;
  if negb (String.eqb (HashingAlgorithm (tcs_worker s)) (hashing_algorithm worker)) then
    emit (Log ERROR
      "ERROR: Signing the request failed. Hashing algorithm is not supported for %s"
      [JStr (hashing_algorithm worker)]) ;;;
    ret None
  else
  if negb (String.eqb (SigningAlgorithm (tcs_worker s)) (signing_algorithm worker)) then
    emit (Log ERROR
      "ERROR: Signing the request failed. Signing algorithm is not supported for %s"
      [JStr (signing_algorithm worker)]) ;;;
    ret None
  else
  input_json <- lift (json_loads input_json_str) ;;
  input_json_params <- lift (py_getitem input_json "params") ;;
  input_json_params <-
    lift (py_setitem input_json_params "sessionKeyIv" (JStr (hex_of_bytes session_iv))) ;;
  let encrypted_session_key_str := hex_of_bytes encrypted_session_key in
  input_json_params <-
    encrypt_workorder_indata input_json_params session_key session_iv
      (worker_encryption_key worker) data_key data_iv ;;
  let nonce := random_bit_string NO_OF_BYTES in
  let request_nonce_hash := compute_message_hash nonce in
  let nonce_hash := encode (byte_array_to_base64 request_nonce_hash) in
  hash_string_1 <-
    lift (calculate_hash_on_concatenated_string input_json_params nonce_hash) ;;
  data_objects <- lift (py_getitem input_json_params "inData") ;;
  hash_string_2 <- lift (calculate_datahash data_objects) ;;
  has_out <- lift (py_contains "outData" input_json_params) ;;
  out <-
    (if has_out then
       data_objects <- lift (py_getitem input_json_params "outData") ;;
       data_objects <- lift (py_sort_by_index data_objects) ;;
       input_json_params <-
         lift (py_setitem input_json_params "outData" data_objects) ;;
       hash_string_3 <- lift (calculate_datahash data_objects) ;;
       ret (input_json_params, hash_string_3)
     else ret (input_json_params, "")) ;;
  let input_json_params := fst out in
  let hash_string_3 := snd out in
  let concat_string := hash_string_1 ++ hash_string_2 ++ hash_string_3 in
  let concat_hash := encode concat_string in
  let final_hash := compute_message_hash concat_hash in
  let encrypted_request_hash :=
    encrypt_data final_hash (Some session_key) (Some session_iv) in
  let encrypted_request_hash_str := hex_of_bytes encrypted_request_hash in
  emit (Log DEBUG ("encrypted request hash: " ++ newline ++ "%s")
          [JStr encrypted_request_hash_str]) ;;;
  input_json_params <-
    lift (py_setitem input_json_params "encryptedRequestHash"
            (JStr encrypted_request_hash_str)) ;;
  signature <- generate_signature final_hash private_key ;;
  input_json_params <-
    lift (py_setitem input_json_params "requesterSignature" (JStr signature)) ;;
  input_json_params <-
    lift (py_setitem input_json_params "encryptedSessionKey"
            (JStr encrypted_session_key_str)) ;;
  s <- get_self ;;
  input_json_params <-
    lift (py_setitem input_json_params "verifyingKey"
            (match public_key s with Some k => JStr k | None => JNull end)) ;;
  input_json_params <-
    lift (py_setitem input_json_params "requesterNonce"
            (JStr (byte_array_to_base64 request_nonce_hash))) ;;
  input_json <- lift (py_setitem input_json "params" input_json_params) ;;
  let input_json_str := json_dumps input_json in
  emit (Log INFO "Request Json successfully Signed" []) ;;;
  ret (Some input_json_str).

(** *** [verify_signature] *)

(** ['code' in input_json_params.keys() and input_json_params['code'] < 0] *)
Definition negative_code (input_json_params : json) : result bool :=
  (keys <- py_keys input_json_params ;;
   if existsb (String.eqb "code") keys then
     code <- py_getitem input_json_params "code" ;;
     py_lt_zero code
   else Ok false)%res.

(** The statements from [nonce = ...] to [final_hash = ...]: the
    signature as read from the response, and the final digest. *)
Definition response_final_hash (input_json_params : json) : result (json * bytes) :=
  (nonce_v <- py_getitem input_json_params "workerNonce" ;;
   nonce <- py_encode nonce_v ;;
   signature <- py_getitem input_json_params "workerSignature" ;;
   hash_string_1 <- calculate_hash_on_concatenated_string input_json_params nonce ;;
   data_objects <- py_getitem input_json_params "outData" ;;
   data_objects <- py_sort_by_index data_objects ;;
   hash_string_2 <- calculate_datahash data_objects ;;
   let concat_string := hash_string_1 ++ hash_string_2 in
   let concat_hash := encode concat_string in
   let final_hash := compute_message_hash concat_hash in
   Ok (signature, final_hash))%res.

(** [crypto.base64_to_byte_array(signature)]: the primitive takes a
    [str] that has a UTF-8 encoding and refuses any other value. *)
Definition py_base64_to_byte_array (signature : json) : result bytes :=
  match signature with
  | JStr s => Ok (base64_to_byte_array s)
  | _ => Raise TypeError
  end.

(** The final [if sig_result == 1 ... elif sig_result == 0 ... else]. *)
Definition status_of_sig_result (sig_result : Z) : SignatureStatus :=
  if sig_result =? 1 then PASSED
  else if sig_result =? 0 then FAILED
  else INVALID_SIGNATURE_FORMAT.

(** The statements from [verify_key = ...] to the end. *)
Definition check_signature (worker : WorkerDetails) (signature : json)
    (final_hash : bytes) : M SignatureStatus :=
  let verify_key := worker_typedata_verification_key worker in
  match SIG_PublicKey verify_key with
  | Raise error =>
      emit (LogExn INFO "Error in verification key : %s" error) ;;;
      ret INVALID_VERIFICATION_KEY
  | Ok _verifying_key =>
      decoded_signature <- lift (py_base64_to_byte_array signature) ;;
      emit (VerifyCall final_hash decoded_signature) ;;;
      let sig_result := VerifySignature _verifying_key final_hash decoded_signature in
      ret (status_of_sig_result sig_result)
  end.

Definition verify_signature (response_str : string) (worker : WorkerDetails)
    : M SignatureStatus :=
  input_json <- lift (json_loads response_str) ;;
  s <- get_self ;;
  if negb (String.eqb (HashingAlgorithm (tcs_worker s)) (hashing_algorithm worker)) then
    emit (Log ERROR
      "ERROR: Signing the request failed. Hashing algorithm is not supported for %s"
      [JStr (hashing_algorithm worker)]) ;;;
    ret ERROR_RESPONSE
  else
  if negb (String.eqb (SigningAlgorithm (tcs_worker s)) (signing_algorithm worker)) then
    emit (Log ERROR
      "ERROR: Signing the request failed. Signing algorithm is not supported for %s"
      [JStr (signing_algorithm worker)]) ;;;
    ret ERROR_RESPONSE
  else
  keys <- lift (py_keys input_json) ;;
  if existsb (String.eqb "error") keys then ret ERROR_RESPONSE
  else
  input_json_params <- lift (py_getitem input_json "result") ;;
  negative <- lift (negative_code input_json_params) ;;
  if negative then ret ERROR_RESPONSE
  else
  sig_hash <- lift (response_final_hash input_json_params) ;;
  check_signature worker (fst sig_hash) (snd sig_hash).
End Methods.

(** ** The digests in the words of the specification *)

Section SpecifiedDigests.
Context {crypto : Crypto}.

(** [item_hash]: every item is hashed on its own and the base64 digests
    are concatenated in the order of the list. *)
Definition item_hash (items : list json) : result string :=
  (digests <- Res.mapM item_hash_base64 items ;;
   Ok (String.concat "" digests))%res.


(** Top-level response digest:
    hash(header_hash || item_hash(outData sorted by index)), the header
    hash taking the worker nonce as it stands. *)
Definition response_digest (result_params : json) : result bytes :=
  (nonce_v <- py_getitem result_params "workerNonce" ;;
   nonce <- py_encode nonce_v ;;
   header <- calculate_hash_on_concatenated_string result_params nonce ;;
   out_data <- py_getitem result_params "outData" ;;
   sorted <- py_sort_by_index out_data ;;
   out_items <- py_iter sorted ;;
   out_hash <- item_hash out_items ;;
   Ok (compute_message_hash (encode (header ++ out_hash))))%res.
End SpecifiedDigests.

(** ** Reading the same fields from two dicts *)

(** Two dicts that agree on the keys a method reads. *)
Definition agree (keys : list string) (o o' : list (string * json)) : Prop :=
  forall k, In k keys -> lookup k o = lookup k o'.

(** The keys read by the header hash, and by the request digest. *)
Definition header_keys : list string :=
  ["workOrderId"; "workerId"; "workloadId"; "requesterId"].


Section ErrorChecks.
Context {crypto : Crypto} {jsonm : JsonModule}.

(** The checks that precede the digest computation: the response parses to
    an object without [error], the algorithms are the configured ones, and
    [result] carries no negative [code]. *)
Definition passes_error_checks (response_str : string) (worker : WorkerDetails)
    (w : world) (result_params : json) : Prop :=
  exists o,
    json_loads response_str = Ok (JObj o) /\
    HashingAlgorithm (tcs_worker (self w)) = hashing_algorithm worker /\
    SigningAlgorithm (tcs_worker (self w)) = signing_algorithm worker /\
    lookup "error" o = None /\
    lookup "result" o = Some result_params /\
    negative_code result_params = Ok false.
End ErrorChecks.

(** ** Sorting items that carry integer indices *)

Definition int_indexed (item : json) : bool :=
  match item with
  | JObj o =>
      match lookup "index" o with
      | Some (JNum _) => true
      | _ => false
      end
  | _ => false
  end.

Definition index_of (item : json) : Z :=
  match item with
  | JObj o =>
      match lookup "index" o with
      | Some (JNum z) => z
      | _ => 0
      end
  | _ => 0
  end.

Definition keyed (items : list json) : list (Z * json) :=
  map (fun item => (index_of item, item)) items.

Definition sorted_by_index (items : list json) : list json :=
  map snd (isort Z.leb (keyed items)).

Definition key_le (a b : Z * json) : Prop := fst a <= fst b.

Definition index_le (a b : json) : Prop := index_of a <= index_of b.

Section SortThenHash.
Context {crypto : Crypto}.

(** Sort the items by [index], then compute the item hash of the result. *)
Definition sort_then_hash (items : list json) : result string :=
  (sorted <- py_sort_by_index (JArr items) ;;
   calculate_datahash sorted)%res.
End SortThenHash.

(** ** The encryption policy in the words of the specification *)

Section EncryptionPolicy.
Context {crypto : Crypto}.

(** The text left in [data]: for an empty or "null" key selector the
    base64 of the data encrypted under the session key, for "-" the
    base64 of the clear data, for any other selector the base64 of the
    data encrypted under the data key. *)
Definition policy_data (session_key session_iv : bytes)
    (data_key data_iv : option bytes) (data e_key : string) : string :=
  if String.eqb e_key "" || String.eqb e_key "null" then
    byte_array_to_base64
      (encrypt_data (encode data) (Some session_key) (Some session_iv))
  else if String.eqb e_key "-" then byte_array_to_base64 (encode data)
  else byte_array_to_base64 (encrypt_data (encode data) data_key data_iv).

(** What [encrypt_item] logs for such an item. *)
Definition policy_logs (session_key session_iv : bytes)
    (data_key data_iv : option bytes) (data e_key : string) : list event :=
  if String.eqb e_key "-" then []
  else [Log DEBUG "encrypted indata - %s"
          [JStr (policy_data session_key session_iv data_key data_iv data e_key)]].
End EncryptionPolicy.

(** ** Shapes of well-formed payloads

    A string field is a [JStr]: a [str] without a lone surrogate, which
    [encode] accepts.  A [JSur] is a [str] too, but not a string field
    in this sense. *)

Definition str_field (k : string) (o : list (string * json)) : bool :=
  match lookup k o with
  | Some (JStr _) => true
  | _ => false
  end.

Definition opt_str_field (k : string) (o : list (string * json)) : bool :=
  match lookup k o with
  | Some (JStr _) => true
  | Some _ => false
  | None => true
  end.

(** The text of an optional string field, empty when the field is absent. *)
Definition str_or_empty (k : string) (o : list (string * json)) : string :=
  match lookup k o with
  | Some (JStr s) => s
  | _ => ""
  end.

Definition int_field (k : string) (o : list (string * json)) : bool :=
  match lookup k o with
  | Some (JNum _) => true
  | _ => false
  end.

(** A data item with an integer [index] and string [data],
    [encryptedDataEncryptionKey] and [iv]; [dataHash], when present, is a
    string.  The strings are free of lone surrogates. *)
Definition full_item (item : json) : bool :=
  match item with
  | JObj o =>
      int_field "index" o && opt_str_field "dataHash" o && str_field "data" o
      && str_field "encryptedDataEncryptionKey" o && str_field "iv" o
  | _ => false
  end.

Definition full_items (v : json) : bool :=
  match v with
  | JArr items => forallb full_item items
  | _ => false
  end.

(** The four identifiers read by the header hash. *)
Definition header_fields (o : list (string * json)) : bool :=
  str_field "workOrderId" o && str_field "workerId" o
  && opt_str_field "workloadId" o && str_field "requesterId" o.

Definition full_result (result_params : json) : bool :=
  match result_params with
  | JObj r =>
      str_field "workerNonce" r && str_field "workerSignature" r
      && header_fields r
      && match lookup "outData" r with
         | Some v => full_items v
         | None => false
         end
  | _ => false
  end.

Definition full_params (params : json) : bool :=
  match params with
  | JObj p =>
      header_fields p
      && match lookup "inData" p with
         | Some v => full_items v
         | None => false
         end
      && match lookup "outData" p with
         | Some v => full_items v
         | None => true
         end
  | _ => false
  end.

(** A response on which [verify_signature] reaches a verdict: it carries
    an [error] member, or its [result] carries a negative [code], or its
    [result] is complete (its strings free of lone surrogates) and its
    [code], if any, is a number. *)
Definition answerable (doc : json) : bool :=
  match doc with
  | JObj o =>
      match lookup "error" o with
      | Some _ => true
      | None =>
          match lookup "result" o with
          | Some (JObj r) =>
              match lookup "code" r with
              | None | Some (JBool _) => full_result (JObj r)
              | Some (JNum code) => (code <? 0) || full_result (JObj r)
              | Some _ => false
              end
          | _ => false
          end
      end
  | _ => false
  end.

Definition statuses : list SignatureStatus :=
  [ERROR_RESPONSE; INVALID_VERIFICATION_KEY; PASSED; FAILED;
   INVALID_SIGNATURE_FORMAT].

(** ** What the validator accepts and what it logs *)

Definition present (k : string) (o : list (string * json)) : bool :=
  match lookup k o with
  | Some _ => true
  | None => false
  end.

Definition is_object (v : json) : bool :=
  match v with
  | JObj _ => true
  | _ => false
  end.

(** An item with a [data] member that is not empty (not falsy) and an
    [index] member. *)
Definition item_ok (item : json) : bool :=
  match item with
  | JObj o =>
      match lookup "data" o with
      | Some d => py_truthy d && present "index" o
      | None => false
      end
  | _ => false
  end.

Definition missing_params (p : list (string * json)) : list string :=
  filter (fun k => negb (present k p)) param_pool.

Definition in_data_items (p : list (string * json)) : list json :=
  match lookup "inData" p with
  | Some (JArr items) => items
  | _ => []
  end.

Definition missing_param_log (k : string) : event :=
  Log ERROR
    "ERROR: Worker Order Submit Json does not have the required parameter: %s"
    [JStr k].

Definition in_data_log : event :=
  Log ERROR
    "ERROR: Worker Order Submit Json does not have the required parameter in InData"
    [].

(** The diagnostics of one validation: one entry per missing mandatory
    field; when none is missing, one entry per defective item. *)
Definition validation_logs (p : list (string * json)) : list event :=
  match missing_params p with
  | [] => map (fun _ => in_data_log) (filter (fun item => negb (item_ok item)) (in_data_items p))
  | missing => map missing_param_log missing
  end.

(** ** A small provider for running the methods on examples

    The hash is the identity, base64 is the identity on text, a ciphertext
    is the key followed by the clear text and a signature is the key name
    followed by the message, so that every digest can be read off. *)

#[local] Instance toy_crypto : Crypto := {|
  privkey := string;
  pubkey := string;
  compute_message_hash := fun b => b;
  byte_array_to_base64 := string_of_list_byte;
  base64_to_byte_array := list_byte_of_string;
  random_bit_string := fun n => repeat x00 n;
  encrypt_data := fun d k _ => (match k with Some k => k | None => [] end ++ d)%list;
  GetPublicKey_Serialize := fun pk => pk;
  SignMessage := fun pk h => (list_byte_of_string pk ++ h)%list;
  SIG_PublicKey := fun s => if String.eqb s "" then Raise CryptoError else Ok s;
  VerifySignature := fun k h sg =>
    if bytes_eqb sg (list_byte_of_string k ++ h)%list then 1
    else match sg with [] => -1 | _ => 0 end
|}.

(** [json.loads] of the input text yields [doc]. *)
Definition loads_as (doc : json) : JsonModule := {|
  json_loads := fun _ => Ok doc;
  json_dumps := fun _ => "<json text>"
|}.

Definition toy_config : WorkerConfig :=
  {| HashingAlgorithm := "SHA-256"; SigningAlgorithm := "SECP256K1" |}.

Definition toy_worker : WorkerDetails :=
  {| hashing_algorithm := "SHA-256";
     signing_algorithm := "SECP256K1";
     worker_encryption_key := "wek";
     worker_typedata_verification_key := "vk" |}.

Definition toy_world : @world toy_crypto := init toy_config.

Definition item (index : Z) (data e_key iv : string) : json :=
  JObj [("index", JNum index); ("data", JStr data);
        ("encryptedDataEncryptionKey", JStr e_key); ("iv", JStr iv)].

(** A request with two input items, given out of index order, and no
    [outData]:
    {jsonrpc: 2.0, method: WorkOrderSubmit, id: 1,
     params: {requesterNonce: "", workOrderId: wo1, workerId: w1,
              workloadId: wl1, requesterId: r1,
              inData: [{index: 2, data: b, encryptedDataEncryptionKey: -, iv: ""},
                       {index: 1, data: a, encryptedDataEncryptionKey: "", iv: ""}]}} *)
Definition request_params (in_data : json) : json :=
  JObj [("requesterNonce", JStr ""); ("workOrderId", JStr "wo1");
        ("workerId", JStr "w1"); ("workloadId", JStr "wl1");
        ("requesterId", JStr "r1"); ("inData", in_data)].

Definition request_doc (in_data : json) : json :=
  JObj [("jsonrpc", JStr "2.0"); ("method", JStr "WorkOrderSubmit");
        ("id", JNum 1); ("params", request_params in_data)].

Definition two_items : json := JArr [item 2 "b" "-" ""; item 1 "a" "" ""].

Definition toy_session_key : bytes := encode "K".
Definition toy_session_iv : bytes := encode "I".
Definition toy_encrypted_session_key : bytes := encode "E".

(** A response whose [outData] holds two items out of index order; with
    the toy provider its digest is the text n1wo1w1wl1r1xy and the
    signature of the key vk over it is that text after vk:
    {jsonrpc: 2.0, id: 1,
     result: {workOrderId: wo1, workloadId: wl1, workerId: w1,
              requesterId: r1, workerNonce: n1, workerSignature: <signature>,
              outData: [{index: 2, data: y, ...}, {index: 1, data: x, ...}]}} *)
Definition response_result (signature : json) : json :=
  JObj [("workOrderId", JStr "wo1"); ("workloadId", JStr "wl1");
        ("workerId", JStr "w1"); ("requesterId", JStr "r1");
        ("workerNonce", JStr "n1"); ("workerSignature", signature);
        ("outData", JArr [item 2 "y" "" ""; item 1 "x" "" ""])].

Definition response_doc (signature : json) : json :=
  JObj [("jsonrpc", JStr "2.0"); ("id", JNum 1);
        ("result", response_result signature)].

Definition good_signature : json := JStr "vkn1wo1w1wl1r1xy".

(** {jsonrpc: 2.0, id: 1, error: {code: -32600, message: Invalid Request}} *)
Definition error_doc : json :=
  JObj [("jsonrpc", JStr "2.0"); ("id", JNum 1);
        ("error", JObj [("code", JNum (-32600));
                        ("message", JStr "Invalid Request")])].

(** {jsonrpc: 2.0, id: 1, result: {code: -1, workOrderId: wo1}} *)
Definition negative_code_doc : json :=
  JObj [("jsonrpc", JStr "2.0"); ("id", JNum 1);
        ("result", JObj [("code", JNum (-1)); ("workOrderId", JStr "wo1")])].


Definition good_response : JsonModule := loads_as (response_doc good_signature).

(** Two items that share the index 1, in both orders. *)
Definition same_index_items : list json := [item 1 "a" "" ""; item 1 "b" "" ""].
Definition same_index_items_swapped : list json := [item 1 "b" "" ""; item 1 "a" "" ""].

(** {jsonrpc: 2.0, id: 1}: neither [error] nor [result]. *)
Definition empty_reply_doc : json :=
  JObj [("jsonrpc", JStr "2.0"); ("id", JNum 1)].

(** A request without [workerId] and [requesterId]:
    {params: {requesterNonce: "", workOrderId: wo1, inData: []}} *)
Definition incomplete_request_doc : json :=
  JObj [("params",
         JObj [("requesterNonce", JStr ""); ("workOrderId", JStr "wo1");
               ("inData", JArr [])])].

(** An input item without [encryptedDataEncryptionKey], and one without
    [iv]: {index: 1, data: a, iv: ""} and
    {index: 1, data: a, encryptedDataEncryptionKey: ""}. *)
Definition item_without_e_key : json :=
  JObj [("index", JNum 1); ("data", JStr "a"); ("iv", JStr "")].

Definition item_without_iv : json :=
  JObj [("index", JNum 1); ("data", JStr "a");
        ("encryptedDataEncryptionKey", JStr "")].

(** An input item whose [data] is the number 7. *)
Definition item_with_number : json :=
  JObj [("index", JNum 1); ("data", JNum 7);
        ("encryptedDataEncryptionKey", JStr ""); ("iv", JStr "")].

(** The response of [response_doc] with an [outData] item that has no
    [iv]. *)
Definition response_without_iv_doc : json :=
  JObj [("jsonrpc", JStr "2.0"); ("id", JNum 1);
        ("result",
         JObj [("workOrderId", JStr "wo1"); ("workloadId", JStr "wl1");
               ("workerId", JStr "w1"); ("requesterId", JStr "r1");
               ("workerNonce", JStr "n1"); ("workerSignature", good_signature);
               ("outData", JArr [item_without_iv])])].

(** An input item whose key selector is JSON [null]. *)
Definition item_with_null_e_key : json :=
  JObj [("index", JNum 1); ("data", JStr "a");
        ("encryptedDataEncryptionKey", JNull); ("iv", JStr "")].

(** ** Fields read by the digests, and small documents for them *)

(** The fields of an item that [__calculate_datahash] reads. *)
Definition item_keys : list string :=
  ["dataHash"; "data"; "encryptedDataEncryptionKey"; "iv"].

(** Parameters holding the three required header fields only. *)
Definition header_only : list (string * json) :=
  [("workOrderId", JStr "wo1"); ("workerId", JStr "w1");
   ("requesterId", JStr "r1")].

(** The fields of an item without [dataHash] and without [index]. *)
Definition bare_item : list (string * json) :=
  [("data", JStr "a"); ("encryptedDataEncryptionKey", JStr ""); ("iv", JStr "")].

(** ** Items after encryption *)

Section EncryptedItems.
Context {crypto : Crypto}.
Variables (session_key session_iv : bytes) (data_key data_iv : option bytes).

(** An item whose [data] and [encryptedDataEncryptionKey] are strings
    without a lone surrogate. *)
Definition encryptable (item : json) : bool :=
  match item with
  | JObj o => str_field "data" o && str_field "encryptedDataEncryptionKey" o
  | _ => false
  end.

(** The item with its [data] replaced as the policy says. *)
Definition encrypted_item (item : json) : json :=
  match item with
  | JObj o =>
      JObj (store "data"
              (JStr (policy_data session_key session_iv data_key data_iv
                       (str_or_empty "data" o)
                       (str_or_empty "encryptedDataEncryptionKey" o)))
              o)
  | _ => item
  end.

(** What encrypting the item logs. *)
Definition encryption_logs (item : json) : list event :=
  match item with
  | JObj o =>
      policy_logs session_key session_iv data_key data_iv
        (str_or_empty "data" o) (str_or_empty "encryptedDataEncryptionKey" o)
  | _ => []
  end.
End EncryptedItems.

(** ** What signing writes *)

Section SignerDefs.
Context {crypto : Crypto}.

(** The instance after [__generate_signature] has stored the keys. *)
Definition with_keys (s : ClientSignature) (private_key : privkey) : ClientSignature :=
  {| private_key := Some private_key;
     public_key := Some (GetPublicKey_Serialize private_key);
     tcs_worker := tcs_worker s |}.

(** The parameters [generate_client_signature] may write. *)
Definition written_keys : list string :=
  ["sessionKeyIv"; "inData"; "outData"; "encryptedRequestHash";
   "requesterSignature"; "encryptedSessionKey"; "verifyingKey"; "requesterNonce"].

(** The five fields stored after the digest is known, in the order of
    the assignments. *)
Definition signed_params (encrypted_session_key : bytes)
    (private_key : privkey) (digest_hex signature : string)
    (base : list (string * json)) : list (string * json) :=
  store "requesterNonce"
    (JStr (byte_array_to_base64
             (compute_message_hash (random_bit_string NO_OF_BYTES))))
    (store "verifyingKey" (JStr (GetPublicKey_Serialize private_key))
       (store "encryptedSessionKey" (JStr (hex_of_bytes encrypted_session_key))
          (store "requesterSignature" (JStr signature)
             (store "encryptedRequestHash" (JStr digest_hex) base)))).

(** A computation that leaves the instance as it found it, whatever its
    outcome. *)
Definition keeps_self {A} (c : M A) : Prop :=
  forall (w : world) r w', c w = (r, w') -> self w' = self w.
End SignerDefs.

(** ** What verification reads, and documents for it *)

(** The fields of [result] that [verify_signature] reads. *)
Definition verified_keys : list string :=
  ["code"; "workerNonce"; "workerSignature"] ++ header_keys ++ ["outData"].

(** [json.loads] of each named text yields the document listed for it;
    any other text does not parse. *)
Definition loads_by_name (docs : list (string * json)) : JsonModule := {|
  json_loads := fun s =>
    match lookup s docs with
    | Some doc => Ok doc
    | None => Raise JSONDecodeError
    end;
  json_dumps := fun _ => "<json text>"
|}.

(** The fields of the [result] of [response_doc], with the given
    [outData]. *)
Definition result_fields (out_data : list json) : list (string * json) :=
  [("workOrderId", JStr "wo1"); ("workloadId", JStr "wl1");
   ("workerId", JStr "w1"); ("requesterId", JStr "r1");
   ("workerNonce", JStr "n1"); ("workerSignature", good_signature);
   ("outData", JArr out_data)].

Definition reply (result : list (string * json)) : list (string * json) :=
  [("jsonrpc", JStr "2.0"); ("id", JNum 1); ("result", JObj result)].

(** Three texts: a signed response, the same with one more field in
    [result], and the same with its two output items exchanged. *)
Definition three_responses : JsonModule :=
  loads_by_name
    [("signed", JObj (reply (result_fields [item 2 "y" "" ""; item 1 "x" "" ""])));
     ("annotated",
      JObj (reply (result_fields [item 2 "y" "" ""; item 1 "x" "" ""]
                   ++ [("workOrderStatus", JStr "done")])));
     ("reordered",
      JObj (reply (result_fields [item 1 "x" "" ""; item 2 "y" "" ""])))].

(** Workers that name an algorithm the configuration does not. *)
Definition toy_worker_other_hash : WorkerDetails :=
  {| hashing_algorithm := "KECCAK-256";
     signing_algorithm := "SECP256K1";
     worker_encryption_key := "wek";
     worker_typedata_verification_key := "vk" |}.

Definition toy_worker_other_signing : WorkerDetails :=
  {| hashing_algorithm := "SHA-256";
     signing_algorithm := "RSA-OAEP-3072";
     worker_encryption_key := "wek";
     worker_typedata_verification_key := "vk" |}.

(** ** Strings that cannot be encoded *)

(** The [str] that [json.loads] yields for the escape \ud800: one lone
    surrogate, in the generalized encoding ED A0 80. *)
Definition lone_surrogate : string :=
  String "237"%char (String "160"%char (String "128"%char "")).

(** An input item whose [data] is that string and whose selector asks
    for no encryption. *)
Definition item_with_surrogate : json :=
  JObj [("index", JNum 1); ("data", JSur lone_surrogate);
        ("encryptedDataEncryptionKey", JStr "-"); ("iv", JStr "")].

(** The response of [response_doc] with that string as [workerNonce]. *)
Definition response_with_surrogate_nonce : json :=
  JObj (reply (store "workerNonce" (JSur lone_surrogate)
                 (result_fields [item 2 "y" "" ""; item 1 "x" "" ""]))).



(** * Properties *)

(** ** Bytes, strings and dicts *)

Lemma bytes_eqb_eq (a b : bytes) : bytes_eqb a b = true <-> a = b.
Proof.
  revert b; induction a as [|x a IH]; intros [|y b]; simpl; split;
    try congruence; try reflexivity.
  - intros H. apply andb_true_iff in H as [Hx Hab].
    apply Byte.byte_dec_bl in Hx. apply IH in Hab. congruence.
  - intros H. injection H as -> ->. apply andb_true_iff. split.
    + now apply Byte.byte_dec_lb.
    + now apply IH.
Qed.

Lemma encode_inj (s t : string) : encode s = encode t -> s = t.
Proof.
  unfold encode. intros H.
  rewrite <- (string_of_list_byte_of_string s), <- (string_of_list_byte_of_string t).
  now rewrite H.
Qed.

Lemma encode_nil (s : string) : encode s = [] <-> s = "".
Proof.
  split.
  - intros H. apply encode_inj. exact H.
  - intros ->. reflexivity.
Qed.

Lemma append_nil_r (s : string) : s ++ "" = s.
Proof. induction s; simpl; congruence. Qed.

Lemma append_assoc (s t u : string) : (s ++ t) ++ u = s ++ t ++ u.
Proof. induction s; simpl; congruence. Qed.

Lemma concat_cons (h : string) (hs : list string) :
  String.concat "" (h :: hs) = h ++ String.concat "" hs.
Proof.
  destruct hs as [|h' hs]; simpl.
  - now rewrite append_nil_r.
  - reflexivity.
Qed.

Lemma lookup_store_same (k : string) (v : json) (o : list (string * json)) :
  lookup k (store k v o) = Some v.
Proof.
  induction o as [|[k' v'] o IH]; simpl.
  - now rewrite String.eqb_refl.
  - destruct (String.eqb k k') eqn:E; simpl; rewrite E; auto.
Qed.

Lemma lookup_store_other (k k' : string) (v : json) (o : list (string * json)) :
  k <> k' -> lookup k (store k' v o) = lookup k o.
Proof.
  intros Hne. induction o as [|[k0 v0] o IH]; simpl.
  - destruct (String.eqb_spec k k'); congruence.
  - destruct (String.eqb_spec k' k0) as [->|Hk0]; simpl.
    + destruct (String.eqb_spec k k0); congruence.
    + now rewrite IH.
Qed.


Lemma agree_refl keys o : agree keys o o.
Proof. intros k _. reflexivity. Qed.

Lemma agree_trans keys o1 o2 o3 :
  agree keys o1 o2 -> agree keys o2 o3 -> agree keys o1 o3.
Proof. intros H12 H23 k Hk. now rewrite H12, H23. Qed.

Lemma agree_store keys k v o :
  ~ In k keys -> agree keys (store k v o) o.
Proof.
  intros Hk k0 Hk0. apply lookup_store_other. intros ->. contradiction.
Qed.


Section MethodFacts.
Context {crypto : Crypto} {jsonm : JsonModule}.

(** *** The state and error monad *)

Lemma bind_ok {A B} (c : M A) (k : A -> M B) w a w1 :
  c w = (Ok a, w1) -> bind c k w = k a w1.
Proof. unfold bind. now intros ->. Qed.

Lemma bind_raise {A B} (c : M A) (k : A -> M B) w e w1 :
  c w = (Raise e, w1) -> bind c k w = (Raise e, w1).
Proof. unfold bind. now intros ->. Qed.

Lemma bind_inv {A B} (c : M A) (k : A -> M B) w b w' :
  bind c k w = (Ok b, w') ->
  exists a w1, c w = (Ok a, w1) /\ k a w1 = (Ok b, w').
Proof.
  unfold bind. destruct (c w) as [[a|e] w1]; intros H.
  - now exists a, w1.
  - discriminate.
Qed.

Lemma bind_lift_inv {A B} (r : result A) (k : A -> M B) w b w' :
  bind (lift r) k w = (Ok b, w') -> exists a, r = Ok a /\ k a w = (Ok b, w').
Proof.
  unfold bind, lift. destruct r as [a|e]; intros H; [eauto|discriminate].
Qed.

Lemma bind_lift_ok {A B} (r : result A) (k : A -> M B) w a :
  r = Ok a -> bind (lift r) k w = k a w.
Proof. now intros ->. Qed.

Lemma bind_lift_raise {A B} (r : result A) (k : A -> M B) w e :
  r = Raise e -> bind (lift r) k w = (Raise e, w).
Proof. now intros ->. Qed.

Lemma bind_emit {B} ev (k : unit -> M B) w :
  bind (emit ev) k w = k tt {| self := self w; trace := trace w ++ [ev] |}.
Proof. reflexivity. Qed.

Lemma bind_get_self {B} (k : ClientSignature -> M B) w :
  bind get_self k w = k (self w) w.
Proof. reflexivity. Qed.

Lemma bind_set_self {B} s (k : unit -> M B) w :
  bind (set_self s) k w = k tt {| self := s; trace := trace w |}.
Proof. reflexivity. Qed.

(** *** Subscripts on dicts *)

Lemma py_setitem_inv x k v y :
  py_setitem x k v = Ok y -> exists o, x = JObj o /\ y = JObj (store k v o).
Proof.
  destruct x; simpl; intros H; try discriminate. injection H as <-. eauto.
Qed.

Lemma py_getitem_store_same k v o : py_getitem (JObj (store k v o)) k = Ok v.
Proof. simpl. now rewrite lookup_store_same. Qed.



Lemma py_contains_store_other k k' v o :
  k <> k' -> py_contains k (JObj (store k' v o)) = py_contains k (JObj o).
Proof. intros H. simpl. now rewrite lookup_store_other. Qed.

(** *** The header hash and the item hash read few keys *)


Lemma header_hash_agree o o' nonce :
  agree header_keys o o' ->
  calculate_hash_on_concatenated_string (JObj o) nonce
  = calculate_hash_on_concatenated_string (JObj o') nonce.
Proof.
  intros H. unfold calculate_hash_on_concatenated_string, py_getitem, py_contains.
  rewrite !(H "workOrderId"), !(H "workerId"), !(H "workloadId"), !(H "requesterId")
    by (simpl; tauto).
  reflexivity.
Qed.

(** The loop of [__calculate_datahash] appends the concatenation of the
    per-item digests to the running string. *)
Lemma datahash_loop_item_hash items hash_str :
  datahash_loop items hash_str
  = (h <- item_hash items ;; Ok (hash_str ++ h))%res.
Proof.
  unfold item_hash. revert hash_str.
  induction items as [|item items IH]; intros hash_str; simpl.
  - now rewrite append_nil_r.
  - destruct (item_hash_base64 item) as [h|e]; simpl; [|reflexivity].
    rewrite IH.
    destruct (Res.mapM item_hash_base64 items) as [hs|e];
      cbn [Res.bind]; [|reflexivity].
    now rewrite concat_cons, append_assoc.
Qed.

Lemma calculate_datahash_item_hash data_objects :
  calculate_datahash data_objects
  = (items <- py_iter data_objects ;; item_hash items)%res.
Proof.
  unfold calculate_datahash.
  destruct (py_iter data_objects) as [items|e]; simpl; [|reflexivity].
  rewrite datahash_loop_item_hash.
  now destruct (item_hash items).
Qed.




(** The digest of one item whose fields are strings. *)
Lemma item_hash_base64_fields o data e_key iv :
  opt_str_field "dataHash" o = true ->
  lookup "data" o = Some (JStr data) ->
  lookup "encryptedDataEncryptionKey" o = Some (JStr e_key) ->
  lookup "iv" o = Some (JStr iv) ->
  item_hash_base64 (JObj o)
  = Ok (byte_array_to_base64
          (compute_message_hash
             (encode (str_or_empty "dataHash" o) ++ encode data
              ++ encode e_key ++ encode iv)%list)).
Proof.
  unfold opt_str_field, str_or_empty, item_hash_base64, py_contains, py_getitem.
  intros Hdh -> -> ->.
  destruct (lookup "dataHash" o) as [[]|]; try discriminate; reflexivity.
Qed.
End MethodFacts.

(** Inversion of a successful run, one statement at a time. *)
Ltac inv_step H :=
  match type of H with
  | bind (lift _) _ _ = (Ok _, _) =>
      let a := fresh "a" in let Ha := fresh "Ha" in
      apply bind_lift_inv in H as (a & Ha & H)
  | bind (emit _) _ _ = _ => rewrite bind_emit in H
  | bind get_self _ _ = _ => rewrite bind_get_self in H
  | bind (set_self _) _ _ = _ => rewrite bind_set_self in H
  | bind _ _ _ = (Ok _, _) =>
      let a := fresh "a" in let w := fresh "w" in let Ha := fresh "Ha" in
      apply bind_inv in H as (a & w & Ha & H)
  | (if negb ?b then _ else _) _ = _ => destruct b eqn:?; cbn [negb] in H
  | (if ?b then _ else _) _ = _ => destruct b eqn:?
  | ret _ _ = _ => unfold ret in H
  end.

(** Two dicts that differ by stores under other keys agree. *)
Ltac solve_agree :=
  let k := fresh "k" in let Hk := fresh "Hk" in
  intros k Hk; simpl in Hk;
  repeat (destruct Hk as [<-|Hk];
          [rewrite !lookup_store_other by discriminate; reflexivity|]);
  contradiction.

(** ** The request digest *)

Section RequestDigest.
Context {crypto : Crypto} {jsonm : JsonModule}.

End RequestDigest.



(** ** The response verifier *)

Lemma existsb_keys (k : string) (o : list (string * json)) :
  existsb (String.eqb k) (map fst o)
  = match lookup k o with Some _ => true | None => false end.
Proof.
  induction o as [|[k' v] o IH]; simpl; [reflexivity|].
  destruct (String.eqb k k'); simpl; auto.
Qed.

Section Verification.
Context {crypto : Crypto} {jsonm : JsonModule}.


Lemma verify_signature_after_checks response_str worker w result_params :
  passes_error_checks response_str worker w result_params ->
  verify_signature response_str worker w
  = match response_final_hash result_params with
    | Ok sig_hash => check_signature worker (fst sig_hash) (snd sig_hash) w
    | Raise e => (Raise e, w)
    end.
Proof.
  intros (o & Hload & Hhash & Hsign & Herr & Hres & Hcode).
  unfold verify_signature.
  rewrite (bind_lift_ok _ _ Hload), bind_get_self.
  rewrite Hhash, Hsign, !String.eqb_refl. cbn [negb].
  rewrite (bind_lift_ok _ _ (a := map fst o)) by reflexivity.
  rewrite existsb_keys, Herr.
  rewrite (bind_lift_ok _ _ (a := result_params))
    by (simpl; now rewrite Hres).
  rewrite (bind_lift_ok _ _ Hcode).
  unfold bind, lift. now destruct (response_final_hash result_params).
Qed.

Lemma response_final_hash_digest result_params sig :
  py_getitem result_params "workerSignature" = Ok sig ->
  response_final_hash result_params
  = (digest <- response_digest result_params ;; Ok (sig, digest))%res.
Proof.
  intros Hsig. unfold response_final_hash, response_digest.
  destruct (py_getitem result_params "workerNonce") as [nonce_v|e];
    cbn [Res.bind]; [|reflexivity].
  destruct (py_encode nonce_v) as [nonce|e]; cbn [Res.bind]; [|reflexivity].
  rewrite Hsig. cbn [Res.bind].
  destruct (calculate_hash_on_concatenated_string result_params nonce)
    as [h1|e]; cbn [Res.bind]; [|reflexivity].
  destruct (py_getitem result_params "outData") as [out|e];
    cbn [Res.bind]; [|reflexivity].
  destruct (py_sort_by_index out) as [sorted|e]; cbn [Res.bind]; [|reflexivity].
  rewrite calculate_datahash_item_hash.
  destruct (py_iter sorted) as [items|e]; cbn [Res.bind]; [|reflexivity].
  destruct (item_hash items) as [h2|e]; cbn [Res.bind]; reflexivity.
Qed.

(** C2.  On a response that reaches the digest computation (and carries a
    [workerSignature]), [verify_signature] computes
    hash(header_hash || item_hash(outData sorted by index)), the header
    hash taking the bytes of [workerNonce] as they stand, and hands that
    digest to the signature check; an exception of the digest computation
    is the outcome of the call. *)
Theorem response_digest_checked response_str worker w result_params sig :
  passes_error_checks response_str worker w result_params ->
  py_getitem result_params "workerSignature" = Ok sig ->
  verify_signature response_str worker w
  = match response_digest result_params with
    | Ok digest => check_signature worker sig digest w
    | Raise e => (Raise e, w)
    end.
Proof.
  intros Hchecks Hsig.
  rewrite (verify_signature_after_checks Hchecks).
  rewrite (response_final_hash_digest _ Hsig).
  now destruct (response_digest result_params).
Qed.

(** C5.  With matching algorithms, a response with an [error] field, or
    whose [result.code] is a negative number, yields [ERROR_RESPONSE];
    nothing is logged and the verification primitive is not called: the
    trace is left as it was. *)
Theorem error_response_first response_str worker w o :
  json_loads response_str = Ok (JObj o) ->
  HashingAlgorithm (tcs_worker (self w)) = hashing_algorithm worker ->
  SigningAlgorithm (tcs_worker (self w)) = signing_algorithm worker ->
  (lookup "error" o <> None \/
   exists r code,
     lookup "result" o = Some (JObj r) /\
     lookup "code" r = Some (JNum code) /\ code < 0) ->
  verify_signature response_str worker w = (Ok ERROR_RESPONSE, w).
Proof.
  intros Hload Hhash Hsign Hcase.
  unfold verify_signature.
  rewrite (bind_lift_ok _ _ Hload), bind_get_self.
  rewrite Hhash, Hsign, !String.eqb_refl. cbn [negb].
  rewrite (bind_lift_ok _ _ (a := map fst o)) by reflexivity.
  rewrite existsb_keys.
  destruct (lookup "error" o) as [v|] eqn:Herr; [reflexivity|].
  destruct Hcase as [Hcase|(r & code & Hres & Hcode & Hneg)]; [congruence|].
  rewrite (bind_lift_ok _ _ (a := JObj r)) by (simpl; now rewrite Hres).
  rewrite (bind_lift_ok _ _ (a := true)); [reflexivity|].
  unfold negative_code, py_keys. cbn [Res.bind].
  rewrite existsb_keys, Hcode. simpl. rewrite Hcode. simpl.
  f_equal. now apply Z.ltb_lt.
Qed.

End Verification.

Lemma toy_passes_error_checks worker :
  hashing_algorithm worker = "SHA-256" ->
  signing_algorithm worker = "SECP256K1" ->
  @passes_error_checks toy_crypto good_response "response" worker toy_world
    (response_result good_signature).
Proof.
  intros Hh Hs. eexists. repeat split; try reflexivity; simpl; auto.
Qed.

Lemma response_digest_checked_witness :
  @response_digest toy_crypto (response_result good_signature)
  = Ok (encode "n1wo1w1wl1r1xy") /\
  @verify_signature toy_crypto good_response "response" toy_worker toy_world
  = (Ok PASSED,
     {| self := self toy_world;
        trace := [VerifyCall (encode "n1wo1w1wl1r1xy") (encode "vkn1wo1w1wl1r1xy")] |}).
Proof.
  split; [reflexivity|].
  etransitivity.
  - apply (@response_digest_checked toy_crypto good_response "response"
             toy_worker toy_world (response_result good_signature) good_signature).
    + apply toy_passes_error_checks; reflexivity.
    + reflexivity.
  - reflexivity.
Defined.

Lemma error_response_first_witness :
  @verify_signature toy_crypto (loads_as error_doc) "response" toy_worker toy_world
  = (Ok ERROR_RESPONSE, toy_world) /\
  @verify_signature toy_crypto (loads_as negative_code_doc) "response" toy_worker
    toy_world
  = (Ok ERROR_RESPONSE, toy_world).
Proof.
  split.
  - eapply (@error_response_first toy_crypto (loads_as error_doc)); try reflexivity.
    left. discriminate.
  - eapply (@error_response_first toy_crypto (loads_as negative_code_doc));
      try reflexivity.
    right. exists [("code", JNum (-1)); ("workOrderId", JStr "wo1")], (-1).
    repeat split.
Defined.


(** ** Sorting by index *)

Section StableSortFacts.
Variable K : Type.
Variable leb : K -> K -> bool.

Lemma insert_perm (x : K * json) l : Permutation (insert leb x l) (x :: l).
Proof.
  induction l as [|y l IH]; simpl; [reflexivity|].
  destruct (leb (fst x) (fst y)); [reflexivity|].
  rewrite IH. apply perm_swap.
Qed.

Lemma isort_perm l : Permutation (isort leb l) l.
Proof.
  induction l as [|x l IH]; simpl; [reflexivity|].
  now rewrite insert_perm, IH.
Qed.
End StableSortFacts.

Lemma insert_sorted x l :
  StronglySorted key_le l -> StronglySorted key_le (insert Z.leb x l).
Proof.
  induction 1 as [|y l Hs IH Hy]; simpl.
  - constructor; constructor.
  - destruct (Z.leb_spec (fst x) (fst y)) as [Hle|Hlt].
    + constructor; [now constructor|].
      constructor; [exact Hle|].
      eapply Forall_impl; [|exact Hy].
      unfold key_le. intros z Hz. lia.
    + constructor; [exact IH|].
      eapply Permutation_Forall; [symmetry; apply insert_perm|].
      constructor; [unfold key_le; lia | exact Hy].
Qed.

Lemma isort_sorted l : StronglySorted key_le (isort Z.leb l).
Proof.
  induction l as [|x l IH]; simpl; [constructor | now apply insert_sorted].
Qed.

(** A list with pairwise distinct keys has one sorted arrangement. *)
Lemma sorted_unique (l1 l2 : list (Z * json)) :
  StronglySorted key_le l1 -> StronglySorted key_le l2 ->
  Permutation l1 l2 -> NoDup (map fst l1) -> l1 = l2.
Proof.
  intros Hs1. revert l2.
  induction Hs1 as [|a t1 Hs1 IH Ha]; intros l2 Hs2 Hperm Hnd.
  - now apply Permutation_nil in Hperm.
  - destruct Hs2 as [|b t2 Hs2 Hb].
    + symmetry in Hperm. now apply Permutation_nil in Hperm.
    + assert (Hba : In b (a :: t1))
        by (eapply Permutation_in; [symmetry; exact Hperm | now left]).
      assert (Hab : In a (b :: t2))
        by (eapply Permutation_in; [exact Hperm | now left]).
      simpl in Hnd. apply NoDup_cons_iff in Hnd as [Hnotin Hnd].
      assert (a = b) as <-.
      { destruct Hba as [Heq|Hin]; [exact Heq|]. exfalso.
        destruct Hab as [Heq|Hin']; [subst; apply Hnotin; now apply in_map|].
        rewrite Forall_forall in Ha, Hb.
        specialize (Ha _ Hin). specialize (Hb _ Hin'). unfold key_le in *.
        apply Hnotin. replace (fst a) with (fst b) by lia.
        now apply in_map. }
      f_equal. apply IH; [exact Hs2 | | exact Hnd].
      eapply Permutation_cons_inv. exact Hperm.
Qed.

Lemma map_snd_keyed items : map snd (keyed items) = items.
Proof.
  unfold keyed. rewrite map_map. simpl. apply map_id.
Qed.

Lemma map_fst_keyed items : map fst (keyed items) = map index_of items.
Proof. unfold keyed. now rewrite map_map. Qed.

Lemma sorted_by_index_perm items : Permutation (sorted_by_index items) items.
Proof.
  unfold sorted_by_index.
  rewrite <- (map_snd_keyed items) at 2.
  apply Permutation_map, isort_perm.
Qed.

Lemma sorted_by_index_sorted items :
  StronglySorted index_le (sorted_by_index items).
Proof.
  unfold sorted_by_index.
  assert (Hall : Forall (fun p => fst p = index_of (snd p)) (isort Z.leb (keyed items))).
  { eapply Permutation_Forall; [symmetry; apply isort_perm|].
    unfold keyed. apply Forall_forall. intros p Hp.
    apply in_map_iff in Hp as (item & <- & _). reflexivity. }
  pose proof (isort_sorted (keyed items)) as Hs.
  induction Hs as [|p l Hs IH Hp]; simpl; constructor.
  - apply IH. now inversion Hall.
  - inversion Hall as [|p' l' Hp' Hl']; subst.
    rewrite Forall_forall in *. intros b Hb.
    apply in_map_iff in Hb as (q & <- & Hq).
    unfold index_le. rewrite <- Hp', <- (Hl' q Hq). exact (Hp q Hq).
Qed.

Lemma sorted_by_index_unique items items' :
  Permutation items items' -> NoDup (map index_of items) ->
  sorted_by_index items = sorted_by_index items'.
Proof.
  intros Hperm Hnd. unfold sorted_by_index. f_equal.
  apply sorted_unique; try apply isort_sorted.
  - rewrite !isort_perm. now apply Permutation_map.
  - eapply Permutation_NoDup; [|rewrite <- map_fst_keyed in Hnd; exact Hnd].
    apply Permutation_map. symmetry. apply isort_perm.
Qed.

Lemma index_keys items :
  forallb int_indexed items = true ->
  Res.mapM (fun item => py_getitem item "index") items
  = Ok (map (fun item => JNum (index_of item)) items).
Proof.
  induction items as [|item items IH]; simpl; [reflexivity|].
  intros H. apply andb_true_iff in H as [Hitem Hitems].
  rewrite (IH Hitems).
  destruct item as [| | | | | |o]; try discriminate. simpl in *.
  destruct (lookup "index" o) as [[]|]; try discriminate. reflexivity.
Qed.

Lemma num_keys items :
  all_some (map num_key (map (fun item => JNum (index_of item)) items))
  = Some (map index_of items).
Proof.
  induction items as [|item items IH]; simpl; [reflexivity|]. now rewrite IH.
Qed.

Lemma combine_keyed items : combine (map index_of items) items = keyed items.
Proof.
  induction items as [|item items IH]; simpl; [reflexivity|]. now rewrite IH.
Qed.

(** The sort of the source on items with integer indices. *)
Lemma py_sort_by_index_int items :
  forallb int_indexed items = true ->
  py_sort_by_index (JArr items) = Ok (JArr (sorted_by_index items)).
Proof.
  intros H. unfold py_sort_by_index. rewrite (index_keys _ H). cbn [Res.bind].
  unfold sort_with_keys, sorted_by_index.
  destruct items as [|a [|b items]]; try reflexivity.
  now rewrite num_keys, combine_keyed.
Qed.


Lemma forallb_perm (f : json -> bool) l l' :
  Permutation l l' -> forallb f l = true -> forallb f l' = true.
Proof.
  intros Hperm H. apply forallb_forall. intros x Hx.
  rewrite forallb_forall in H. apply H.
  eapply Permutation_in; [symmetry; exact Hperm | exact Hx].
Qed.

Section SortThenHashFacts.
Context {crypto : Crypto}.

(** C9, amended.  For items that carry pairwise distinct integer indices,
    sorting any permutation of the list by index gives the same list, in
    ascending index order, and hence the same item hash. *)
Theorem sort_then_hash_permutation items items' :
  Permutation items items' ->
  forallb int_indexed items = true ->
  NoDup (map index_of items) ->
  py_sort_by_index (JArr items) = Ok (JArr (sorted_by_index items)) /\
  py_sort_by_index (JArr items') = Ok (JArr (sorted_by_index items)) /\
  StronglySorted index_le (sorted_by_index items) /\
  Permutation (sorted_by_index items) items /\
  sort_then_hash items' = sort_then_hash items.
Proof.
  intros Hperm Hint Hnd.
  assert (Hsort : py_sort_by_index (JArr items) = Ok (JArr (sorted_by_index items)))
    by now apply py_sort_by_index_int.
  assert (Hsort' : py_sort_by_index (JArr items') = Ok (JArr (sorted_by_index items))).
  { rewrite (sorted_by_index_unique Hperm Hnd).
    apply py_sort_by_index_int. eapply forallb_perm; eassumption. }
  repeat split.
  - exact Hsort.
  - exact Hsort'.
  - apply sorted_by_index_sorted.
  - apply sorted_by_index_perm.
  - unfold sort_then_hash. now rewrite Hsort, Hsort'.
Qed.
End SortThenHashFacts.

Lemma sort_then_hash_permutation_witness :
  @sort_then_hash toy_crypto [item 1 "a" "" ""; item 2 "b" "-" ""]
  = @sort_then_hash toy_crypto [item 2 "b" "-" ""; item 1 "a" "" ""]
  /\ @sort_then_hash toy_crypto [item 2 "b" "-" ""; item 1 "a" "" ""] = Ok "ab-".
Proof.
  split; [|reflexivity].
  apply (@sort_then_hash_permutation toy_crypto
           [item 2 "b" "-" ""; item 1 "a" "" ""]
           [item 1 "a" "" ""; item 2 "b" "-" ""]).
  - apply perm_swap.
  - reflexivity.
  - simpl. repeat constructor; simpl; intuition discriminate.
Defined.

(** Two items with the same index keep their relative order (the sort is
    stable), so the two orders of the list hash differently. *)
Lemma sort_then_hash_same_index :
  Permutation same_index_items same_index_items_swapped /\
  @sort_then_hash toy_crypto same_index_items = Ok "ab" /\
  @sort_then_hash toy_crypto same_index_items_swapped = Ok "ba" /\
  @sort_then_hash toy_crypto same_index_items
  <> @sort_then_hash toy_crypto same_index_items_swapped.
Proof.
  split; [apply perm_swap|].
  split; [reflexivity|]. split; [reflexivity|].
  vm_compute. discriminate.
Qed.

(** ** Complete payloads are processed without an exception *)

Ltac field_cases H k o :=
  let E := fresh "E" in
  destruct (lookup k o) as [[]|] eqn:E; try discriminate H.

Section CompletePayloads.
Context {crypto : Crypto} {jsonm : JsonModule}.

Lemma header_hash_ok o nonce :
  header_fields o = true ->
  exists h, calculate_hash_on_concatenated_string (JObj o) nonce = Ok h.
Proof.
  unfold header_fields, str_field, opt_str_field. intros H.
  repeat (apply andb_true_iff in H as [H ?]).
  unfold calculate_hash_on_concatenated_string, py_getitem, py_contains.
  field_cases H "workOrderId" o. field_cases H0 "requesterId" o.
  field_cases H2 "workerId" o.
  destruct (lookup "workloadId" o) as [[]|]; try discriminate; simpl; eauto.
Qed.

Lemma full_item_hash_ok item :
  full_item item = true -> exists h, item_hash_base64 item = Ok h.
Proof.
  destruct item as [| | | | | |o]; try discriminate. simpl.
  unfold str_field. intros H. repeat (apply andb_true_iff in H as [H ?]).
  field_cases H0 "iv" o. field_cases H1 "encryptedDataEncryptionKey" o.
  field_cases H2 "data" o.
  erewrite item_hash_base64_fields; eauto.
Qed.

Lemma full_items_hash_ok items :
  forallb full_item items = true -> exists h, item_hash items = Ok h.
Proof.
  unfold item_hash. induction items as [|item items IH]; simpl; [eauto|].
  intros H. apply andb_true_iff in H as [Hitem Hitems].
  destruct (full_item_hash_ok _ Hitem) as (h & ->).
  destruct (IH Hitems) as (hs & Hhs). cbn [Res.bind].
  destruct (Res.mapM item_hash_base64 items); [cbn [Res.bind]; eauto | discriminate].
Qed.

Lemma full_item_int_indexed item : full_item item = true -> int_indexed item = true.
Proof.
  destruct item as [| | | | | |o]; try discriminate. simpl. unfold int_field.
  intros H. repeat (apply andb_true_iff in H as [H ?]).
  destruct (lookup "index" o) as [[]|]; try discriminate. reflexivity.
Qed.

Lemma full_items_int_indexed items :
  forallb full_item items = true -> forallb int_indexed items = true.
Proof.
  rewrite !forallb_forall. intros H x Hx. apply full_item_int_indexed, H, Hx.
Qed.

(** Sort, then hash: both succeed on complete items. *)
Lemma full_items_sort_hash_ok v :
  full_items v = true ->
  exists sorted h,
    py_sort_by_index v = Ok (JArr sorted) /\
    forallb full_item sorted = true /\
    calculate_datahash (JArr sorted) = Ok h.
Proof.
  destruct v as [| | | | |items|]; try discriminate. simpl. intros H.
  assert (Hsorted : forallb full_item (sorted_by_index items) = true).
  { eapply forallb_perm; [symmetry; apply sorted_by_index_perm | exact H]. }
  destruct (full_items_hash_ok _ Hsorted) as (h & Hh).
  exists (sorted_by_index items), h. split; [|split].
  - apply py_sort_by_index_int, full_items_int_indexed, H.
  - exact Hsorted.
  - rewrite calculate_datahash_item_hash. exact Hh.
Qed.

Lemma full_result_final_hash r :
  full_result (JObj r) = true ->
  exists signature digest,
    response_final_hash (JObj r) = Ok (JStr signature, digest).
Proof.
  simpl. unfold str_field. intros H. repeat (apply andb_true_iff in H as [H ?]).
  destruct (lookup "outData" r) as [out|] eqn:Eout; [|discriminate].
  field_cases H "workerNonce" r. field_cases H2 "workerSignature" r.
  destruct (header_hash_ok r (encode s) H1) as (h1 & Hh1).
  destruct (full_items_sort_hash_ok _ H0) as (sorted & h2 & Hsort & _ & Hh2).
  unfold response_final_hash, py_getitem. rewrite E, E0, Eout. cbn [Res.bind py_encode].
  rewrite Hh1. cbn [Res.bind]. rewrite Hsort. cbn [Res.bind]. rewrite Hh2.
  cbn [Res.bind]. eauto.
Qed.

Lemma check_signature_ok worker signature digest w :
  exists status w',
    check_signature worker (JStr signature) digest w = (Ok status, w').
Proof.
  unfold check_signature.
  destruct (SIG_PublicKey (worker_typedata_verification_key worker)).
  - rewrite (bind_lift_ok _ _ (a := base64_to_byte_array signature)) by reflexivity.
    rewrite bind_emit. unfold ret. eauto.
  - rewrite bind_emit. unfold ret. eauto.
Qed.

Lemma status_listed (status : SignatureStatus) : In status statuses.
Proof. destruct status; simpl; tauto. Qed.

(** C6, amended.  [verify_signature] returns one of the five statuses,
    without an exception, on every response that parses and either meets
    an algorithm the configuration does not name or is [answerable]: it
    has an [error] member, or a negative [code], or a complete [result]
    whose strings are free of lone surrogates. *)
Theorem verify_signature_returns response_str worker w doc :
  json_loads response_str = Ok doc ->
  HashingAlgorithm (tcs_worker (self w)) <> hashing_algorithm worker \/
  SigningAlgorithm (tcs_worker (self w)) <> signing_algorithm worker \/
  answerable doc = true ->
  exists status w',
    verify_signature response_str worker w = (Ok status, w') /\
    In status statuses.
Proof.
  intros Hload Hcase.
  enough (exists status w', verify_signature response_str worker w = (Ok status, w'))
    as (status & w' & H) by (exists status, w'; auto using status_listed).
  unfold verify_signature. rewrite (bind_lift_ok _ _ Hload), bind_get_self.
  destruct (String.eqb_spec (HashingAlgorithm (tcs_worker (self w)))
              (hashing_algorithm worker)) as [Hh|Hh]; cbn [negb];
    [|rewrite bind_emit; unfold ret; eauto].
  destruct (String.eqb_spec (SigningAlgorithm (tcs_worker (self w)))
              (signing_algorithm worker)) as [Hs|Hs]; cbn [negb];
    [|rewrite bind_emit; unfold ret; eauto].
  destruct Hcase as [Hcase|[Hcase|Hans]]; try contradiction.
  destruct doc as [| | | | | |o]; try discriminate. simpl in Hans.
  rewrite (bind_lift_ok _ _ (a := map fst o)) by reflexivity.
  rewrite existsb_keys.
  destruct (lookup "error" o) as [err|]; [unfold ret; eauto|].
  destruct (lookup "result" o) as [[| | | | | |r]|] eqn:Hres; try discriminate.
  rewrite (bind_lift_ok _ _ (a := JObj r)) by (simpl; now rewrite Hres).
  assert (Hfull : full_result (JObj r) = true ->
    exists status w',
      bind (lift (response_final_hash (JObj r)))
        (fun sig_hash => check_signature worker (fst sig_hash) (snd sig_hash)) w
      = (Ok status, w')).
  { intros Hfull. destruct (full_result_final_hash r Hfull) as (sg & d & Hfinal).
    rewrite (bind_lift_ok _ _ Hfinal). apply check_signature_ok. }
  unfold negative_code, py_keys. cbn [Res.bind]. rewrite existsb_keys.
  destruct (lookup "code" r) as [[| |code| | | |]|] eqn:Hcode; try discriminate;
    unfold py_getitem; rewrite ?Hcode; cbn [Res.bind py_lt_zero].
  - rewrite (bind_lift_ok _ _ (a := false)) by reflexivity. auto.
  - destruct (code <? 0) eqn:Hneg.
    + rewrite (bind_lift_ok _ _ (a := true)) by reflexivity. unfold ret. eauto.
    + rewrite (bind_lift_ok _ _ (a := false)) by reflexivity. auto.
  - rewrite (bind_lift_ok _ _ (a := false)) by reflexivity. auto.
Qed.
End CompletePayloads.

Lemma verify_signature_returns_witness :
  exists status w',
    @verify_signature toy_crypto good_response "response" toy_worker toy_world
    = (Ok status, w') /\ In status statuses.
Proof.
  apply (@verify_signature_returns toy_crypto good_response "response" toy_worker
           toy_world (response_doc good_signature)).
  - reflexivity.
  - right. right. reflexivity.
Defined.

(** A reply with neither [error] nor [result] makes [verify_signature]
    raise [KeyError] instead of returning a status, and so does a result
    whose [outData] item has no [iv]. *)
Lemma verify_signature_raises :
  @verify_signature toy_crypto (loads_as empty_reply_doc) "response" toy_worker
    toy_world
  = (Raise (KeyError "result"), toy_world) /\
  @verify_signature toy_crypto (loads_as response_without_iv_doc) "response"
    toy_worker toy_world
  = (Raise (KeyError "iv"), toy_world) /\
  ~ (exists status w',
        @verify_signature toy_crypto (loads_as empty_reply_doc) "response"
          toy_worker toy_world
        = (Ok status, w')).
Proof.
  split; [reflexivity|]. split; [reflexivity|].
  intros (status & w' & H). vm_compute in H. discriminate.
Qed.

(** ** The payload validator *)

Section Validator.
Context {crypto : Crypto} {jsonm : JsonModule}.

Lemma check_params_run pool p param_valid w :
  check_params pool (JObj p) param_valid w
  = (Ok (param_valid && forallb (fun k => present k p) pool),
     {| self := self w;
        trace := trace w
                 ++ map missing_param_log
                      (filter (fun k => negb (present k p)) pool) |}).
Proof.
  revert param_valid w. induction pool as [|k pool IH]; intros param_valid w; simpl.
  - unfold ret. rewrite andb_true_r, app_nil_r. now destruct w.
  - rewrite (bind_lift_ok _ _ (a := present k p)) by reflexivity.
    destruct (present k p); cbn [negb andb].
    + apply IH.
    + rewrite bind_emit, IH. cbn [self trace andb].
      rewrite andb_false_r, <- app_assoc. reflexivity.
Qed.

Lemma indata_defect_object o : indata_defect (JObj o) = Ok (negb (item_ok (JObj o))).
Proof.
  unfold indata_defect, item_ok, present. simpl.
  destruct (lookup "data" o) as [d|]; simpl; [|reflexivity].
  destruct (py_truthy d); simpl; [|reflexivity].
  now destruct (lookup "index" o).
Qed.

Lemma check_indata_run items param_valid w :
  forallb is_object items = true ->
  check_indata items param_valid w
  = (Ok (param_valid && forallb item_ok items),
     {| self := self w;
        trace := trace w
                 ++ map (fun _ => in_data_log)
                      (filter (fun item => negb (item_ok item)) items) |}).
Proof.
  revert param_valid w.
  induction items as [|item items IH]; intros param_valid w Hobj; simpl.
  - unfold ret. rewrite andb_true_r, app_nil_r. now destruct w.
  - simpl in Hobj. apply andb_true_iff in Hobj as [Hitem Hobj].
    destruct item as [| | | | | |o]; try discriminate.
    rewrite (bind_lift_ok _ _ (indata_defect_object o)).
    destruct (item_ok (JObj o)); cbn [negb andb].
    + now apply IH.
    + rewrite bind_emit, (IH _ _ Hobj). cbn [self trace andb].
      rewrite andb_false_r, <- app_assoc. reflexivity.
Qed.

Lemma missing_params_nil p :
  missing_params p = [] <-> forallb (fun k => present k p) param_pool = true.
Proof.
  unfold missing_params.
  induction param_pool as [|k pool IH]; simpl; [tauto|].
  destruct (present k p); simpl; [exact IH|]. split; discriminate.
Qed.

(** C8, amended.  On a request object whose [params] is an object and whose
    [inData], when present, is an array of objects, the validator returns
    a boolean without an exception: [true] exactly when every mandatory
    field is present and every item of [inData] has a non-empty [data] and
    an [index]; it logs every missing mandatory field, one by one, and,
    when none is missing, every defective item.  Without [params] it
    returns [false] with one diagnostic. *)
Theorem payload_json_check_complete json_data w o :
  json_loads json_data = Ok (JObj o) ->
  (forall p,
      lookup "params" o = Some (JObj p) ->
      (forall v, lookup "inData" p = Some v ->
                 exists items, v = JArr items /\ forallb is_object items = true) ->
      payload_json_check json_data w
      = (Ok (forallb (fun k => present k p) param_pool
             && forallb item_ok (in_data_items p)),
         {| self := self w; trace := trace w ++ validation_logs p |}))
  /\
  (lookup "params" o = None ->
   payload_json_check json_data w
   = (Ok false,
      {| self := self w;
         trace := trace w
                  ++ [Log ERROR
                        "ERROR: Worker Order Submit Json does not have the required params"
                        []] |})).
Proof.
  intros Hload. unfold payload_json_check.
  rewrite (bind_lift_ok _ _ Hload). split.
  - intros p Hparams Hshape.
    rewrite (bind_lift_ok _ _ (a := true)) by (simpl; now rewrite Hparams).
    cbn [negb].
    rewrite (bind_lift_ok _ _ (a := JObj p)) by (simpl; now rewrite Hparams).
    erewrite bind_ok by apply check_params_run. cbn [andb].
    unfold validation_logs.
    destruct (forallb (fun k => present k p) param_pool) eqn:Hall.
    + apply missing_params_nil in Hall as Hnil.
      unfold missing_params in Hnil. rewrite Hnil. fold (missing_params p).
      apply missing_params_nil in Hall. rewrite Hall.
      assert (Hin : exists v, lookup "inData" p = Some v).
      { apply missing_params_nil in Hall. simpl in Hall. unfold present in Hall.
        destruct (lookup "inData" p); [eauto|].
        rewrite !andb_false_r in Hall. discriminate. }
      destruct Hin as (v & Hv). destruct (Hshape v Hv) as (items & -> & Hobj).
      rewrite (bind_lift_ok _ _ (a := JArr items)) by (simpl; now rewrite Hv).
      rewrite (bind_lift_ok _ _ (a := items)) by reflexivity.
      rewrite (check_indata_run _ _ _ Hobj). cbn [self trace andb].
      unfold in_data_items. rewrite Hv. simpl. rewrite app_nil_r. reflexivity.
    + unfold ret. cbn [andb]. fold (missing_params p).
      destruct (missing_params p) eqn:Hmiss; [|reflexivity].
      apply missing_params_nil in Hmiss. congruence.
  - intros Hparams.
    rewrite (bind_lift_ok _ _ (a := false)) by (simpl; now rewrite Hparams).
    cbn [negb]. rewrite bind_emit. reflexivity.
Qed.
End Validator.

Lemma payload_json_check_complete_witness :
  @payload_json_check toy_crypto (loads_as (request_doc two_items)) "request" toy_world
  = (Ok true, toy_world) /\
  @payload_json_check toy_crypto (loads_as incomplete_request_doc) "request" toy_world
  = (Ok false,
     {| self := self toy_world;
        trace := [missing_param_log "workerId"; missing_param_log "requesterId"] |}).
Proof.
  split.
  - etransitivity.
    + eapply (proj1 (@payload_json_check_complete toy_crypto
                       (loads_as (request_doc two_items)) "request" toy_world _
                       eq_refl)).
      * reflexivity.
      * intros v Hv. vm_compute in Hv. injection Hv as <-.
        eexists. split; reflexivity.
    + reflexivity.
  - etransitivity.
    + eapply (proj1 (@payload_json_check_complete toy_crypto
                       (loads_as incomplete_request_doc) "request" toy_world _
                       eq_refl)).
      * reflexivity.
      * intros v Hv. vm_compute in Hv. injection Hv as <-.
        eexists. split; reflexivity.
    + reflexivity.
Defined.

(** A request whose [inData] is [null] has all five mandatory fields, and
    the loop over [inData] raises [TypeError] instead of returning a
    boolean. *)
Lemma payload_json_check_raises :
  @payload_json_check toy_crypto (loads_as (request_doc JNull)) "request" toy_world
  = (Raise TypeError, toy_world) /\
  ~ (exists valid w',
        @payload_json_check toy_crypto (loads_as (request_doc JNull)) "request"
          toy_world
        = (Ok valid, w')).
Proof.
  split; [reflexivity|]. intros (valid & w' & H). vm_compute in H. discriminate.
Qed.

(** ** The in-data encryptor *)

Lemma bytes_eqb_encode (s t : string) :
  bytes_eqb (encode s) (encode t) = String.eqb s t.
Proof.
  destruct (String.eqb_spec s t) as [->|Hne].
  - now apply bytes_eqb_eq.
  - destruct (bytes_eqb (encode s) (encode t)) eqn:E; [|reflexivity].
    apply bytes_eqb_eq, encode_inj in E. contradiction.
Qed.

Section Encryptor.
Context {crypto : Crypto}.

(** The three policies, on an item whose [data] and key selector are
    strings. *)
Lemma encrypt_item_policy session_key session_iv data_key data_iv o data e_key w :
  lookup "data" o = Some (JStr data) ->
  lookup "encryptedDataEncryptionKey" o = Some (JStr e_key) ->
  encrypt_item session_key session_iv data_key data_iv (JObj o) w
  = (Ok (JObj (store "data"
                 (JStr (policy_data session_key session_iv data_key data_iv data e_key))
                 o)),
     {| self := self w;
        trace := trace w
                 ++ policy_logs session_key session_iv data_key data_iv data e_key |}).
Proof.
  intros Hdata Hkey. unfold encrypt_item.
  rewrite (bind_lift_ok _ _ (a := JStr data)) by (simpl; now rewrite Hdata).
  rewrite (bind_lift_ok _ _ (a := encode data)) by reflexivity.
  rewrite (bind_lift_ok _ _ (a := JStr e_key)) by (simpl; now rewrite Hkey).
  rewrite (bind_lift_ok _ _ (a := encode e_key)) by reflexivity.
  change (@nil byte) with (encode ""). rewrite !bytes_eqb_encode.
  unfold policy_logs, policy_data.
  destruct (String.eqb_spec e_key "") as [->|Hne]; cbn [orb].
  - simpl py_setitem. rewrite (bind_lift_ok _ _ eq_refl), bind_emit. reflexivity.
  - destruct (String.eqb_spec e_key "null") as [->|Hnull].
    + simpl py_setitem. rewrite (bind_lift_ok _ _ eq_refl), bind_emit. reflexivity.
    + destruct (String.eqb_spec e_key "-") as [->|Hdash].
      * unfold lift. simpl. rewrite app_nil_r. now destruct w.
      * simpl py_setitem. rewrite (bind_lift_ok _ _ eq_refl), bind_emit.
        reflexivity.
Qed.

(** C3 at its failing inputs.  An item without a key selector, or with a
    [null] one, is not encrypted under the session key: the encryptor
    raises before it selects a policy. *)
Theorem absent_key_selector_raises session_key session_iv worker_encryption_key
    data_key data_iv (w : world) :
  encrypt_workorder_indata (request_params (JArr [item_without_e_key]))
    session_key session_iv worker_encryption_key data_key data_iv w
  = (Raise (KeyError "encryptedDataEncryptionKey"),
     {| self := self w;
        trace := trace w ++ [Log INFO "Encrypting Workorder Data" []] |})
  /\
  encrypt_workorder_indata (request_params (JArr [item_with_null_e_key]))
    session_key session_iv worker_encryption_key data_key data_iv w
  = (Raise (AttributeError "encode"),
     {| self := self w;
        trace := trace w ++ [Log INFO "Encrypting Workorder Data" []] |}).
Proof. split; reflexivity. Qed.

(** C10.  The encryptor reads [encryptedDataEncryptionKey] of every item
    without a test, and the item hash reads it and [iv] without a test; a
    request whose only input item lacks one of the two passes validation
    and then makes [generate_client_signature] raise [KeyError]. *)
Theorem validated_request_raises :
  (forall session_key session_iv data_key data_iv o data (w : world),
      lookup "data" o = Some (JStr data) ->
      lookup "encryptedDataEncryptionKey" o = None ->
      encrypt_item session_key session_iv data_key data_iv (JObj o) w
      = (Raise (KeyError "encryptedDataEncryptionKey"), w))
  /\
  (forall o data,
      opt_str_field "dataHash" o = true ->
      lookup "data" o = Some (JStr data) ->
      lookup "encryptedDataEncryptionKey" o = None ->
      item_hash_base64 (JObj o) = Raise (KeyError "encryptedDataEncryptionKey"))
  /\
  (forall o data e_key,
      opt_str_field "dataHash" o = true ->
      lookup "data" o = Some (JStr data) ->
      lookup "encryptedDataEncryptionKey" o = Some (JStr e_key) ->
      lookup "iv" o = None ->
      item_hash_base64 (JObj o) = Raise (KeyError "iv"))
  /\
  (forall private_key session_key session_iv encrypted_session_key data_key data_iv,
      @payload_json_check crypto (loads_as (request_doc (JArr [item_without_e_key])))
        "request" (init toy_config)
      = (Ok true, init toy_config) /\
      fst (@generate_client_signature crypto
             (loads_as (request_doc (JArr [item_without_e_key])))
             "request" toy_worker private_key session_key session_iv
             encrypted_session_key data_key data_iv (init toy_config))
      = Raise (KeyError "encryptedDataEncryptionKey") /\
      @payload_json_check crypto (loads_as (request_doc (JArr [item_without_iv])))
        "request" (init toy_config)
      = (Ok true, init toy_config) /\
      fst (@generate_client_signature crypto
             (loads_as (request_doc (JArr [item_without_iv])))
             "request" toy_worker private_key session_key session_iv
             encrypted_session_key data_key data_iv (init toy_config))
      = Raise (KeyError "iv")).
Proof.
  split; [|split; [|split]].
  - intros * Hdata Hkey. unfold encrypt_item.
    rewrite (bind_lift_ok _ _ (a := JStr data)) by (simpl; now rewrite Hdata).
    rewrite (bind_lift_ok _ _ (a := encode data)) by reflexivity.
    apply bind_lift_raise. simpl. now rewrite Hkey.
  - intros o data Hdh Hdata Hkey.
    unfold opt_str_field in Hdh.
    unfold item_hash_base64, py_contains, py_getitem. rewrite Hdata, Hkey.
    destruct (lookup "dataHash" o) as [[]|]; try discriminate; reflexivity.
  - intros o data e_key Hdh Hdata Hkey Hiv.
    unfold opt_str_field in Hdh.
    unfold item_hash_base64, py_contains, py_getitem. rewrite Hdata, Hkey, Hiv.
    destruct (lookup "dataHash" o) as [[]|]; try discriminate; reflexivity.
  - intros. repeat split; reflexivity.
Qed.
End Encryptor.

Lemma validated_request_raises_witness :
  @encrypt_item toy_crypto toy_session_key toy_session_iv None None
    item_without_e_key toy_world
  = (Raise (KeyError "encryptedDataEncryptionKey"), toy_world) /\
  @item_hash_base64 toy_crypto item_without_e_key
  = Raise (KeyError "encryptedDataEncryptionKey") /\
  @item_hash_base64 toy_crypto item_without_iv = Raise (KeyError "iv").
Proof.
  destruct (@validated_request_raises toy_crypto) as (Henc & Hkey & Hiv & _).
  split; [|split].
  - apply (Henc toy_session_key toy_session_iv None None
             [("index", JNum 1); ("data", JStr "a"); ("iv", JStr "")] "a");
      reflexivity.
  - apply (Hkey [("index", JNum 1); ("data", JStr "a"); ("iv", JStr "")] "a");
      reflexivity.
  - apply (Hiv [("index", JNum 1); ("data", JStr "a");
                ("encryptedDataEncryptionKey", JStr "")] "a" ""); reflexivity.
Defined.

(** ** The request signer *)

Section Signer.
Context {crypto : Crypto} {jsonm : JsonModule}.

(** The validator leaves the instance attributes alone. *)
Lemma check_params_self pool data_params param_valid w r w' :
  check_params pool data_params param_valid w = (r, w') -> self w' = self w.
Proof.
  revert param_valid w. induction pool as [|k pool IH]; intros param_valid w; simpl.
  - unfold ret. now intros [= _ <-].
  - unfold bind at 1, lift.
    destruct (py_contains k data_params) as [[]|e]; cbn [negb].
    + apply IH.
    + rewrite bind_emit. intros H. now apply IH in H.
    + now intros [= _ <-].
Qed.

Lemma check_indata_self objs param_valid w r w' :
  check_indata objs param_valid w = (r, w') -> self w' = self w.
Proof.
  revert param_valid w. induction objs as [|obj objs IH]; intros param_valid w; simpl.
  - unfold ret. now intros [= _ <-].
  - unfold bind at 1, lift.
    destruct (indata_defect obj) as [[]|e].
    + rewrite bind_emit. intros H. now apply IH in H.
    + apply IH.
    + now intros [= _ <-].
Qed.

Lemma payload_json_check_self json_data w r w' :
  payload_json_check json_data w = (r, w') -> self w' = self w.
Proof.
  unfold payload_json_check.
  unfold bind at 1, lift. destruct (json_loads json_data) as [data|e];
    [|now intros [= _ <-]].
  unfold bind at 1. destruct (py_contains "params" data) as [[]|e]; cbn [negb];
    [| rewrite bind_emit; unfold ret; now intros [= _ <-] | now intros [= _ <-]].
  unfold bind at 1. destruct (py_getitem data "params") as [data_params|e];
    [|now intros [= _ <-]].
  unfold bind at 1.
  destruct (check_params param_pool data_params true w) as [[[]|e] w1] eqn:Hparams;
    apply check_params_self in Hparams.
  - unfold bind at 1. destruct (py_getitem data_params "inData") as [i_obj|e];
      [|intros [= _ <-]; exact Hparams].
    unfold bind at 1. destruct (py_iter i_obj) as [objs|e];
      [|intros [= _ <-]; exact Hparams].
    intros H. apply check_indata_self in H. congruence.
  - unfold ret. intros [= _ <-]. exact Hparams.
  - intros [= _ <-]. exact Hparams.
Qed.

Lemma full_item_store_data o x :
  full_item (JObj o) = true -> full_item (JObj (store "data" (JStr x) o)) = true.
Proof.
  simpl. unfold int_field, opt_str_field, str_field.
  rewrite lookup_store_same.
  rewrite !lookup_store_other by discriminate.
  intros H. repeat (apply andb_true_iff in H as [H ?]).
  repeat (apply andb_true_iff; split); auto.
Qed.

Lemma encrypt_items_full session_key session_iv data_key data_iv items (w : world) :
  forallb full_item items = true ->
  exists items' w',
    encrypt_items session_key session_iv data_key data_iv items w = (Ok items', w') /\
    forallb full_item items' = true /\ self w' = self w.
Proof.
  revert w. induction items as [|item items IH]; intros w H; simpl.
  - exists [], w. auto.
  - simpl in H. apply andb_true_iff in H as [Hitem Hitems].
    destruct item as [| | | | | |o]; try discriminate.
    assert (Hfull := Hitem). simpl in Hitem. unfold str_field in Hitem.
    repeat (apply andb_true_iff in Hitem as [Hitem ?]).
    field_cases H0 "encryptedDataEncryptionKey" o. field_cases H1 "data" o.
    erewrite bind_ok by (apply encrypt_item_policy; eassumption).
    edestruct (IH {| self := self w; trace := trace w ++ policy_logs session_key session_iv data_key data_iv s0 s |} Hitems) as (items' & w' & Hrun & Hfull' & Hself).
    erewrite bind_ok by exact Hrun. unfold ret.
    do 2 eexists. split; [reflexivity|]. split; [|exact Hself].
    cbn [forallb]. rewrite full_item_store_data by exact Hfull. rewrite Hfull'. reflexivity.
Qed.

Lemma encrypt_workorder_indata_full p v session_key session_iv wek data_key data_iv (w : world) :
  lookup "inData" p = Some v -> full_items v = true ->
  exists sorted items' w',
    encrypt_workorder_indata (JObj p) session_key session_iv wek data_key data_iv w
    = (Ok (JObj (store "inData" (JArr items') (store "inData" (JArr sorted) p))), w') /\
    forallb full_item items' = true /\ self w' = self w.
Proof.
  intros Hin Hfull.
  destruct (full_items_sort_hash_ok v Hfull) as (sorted & _ & Hsort & Hsorted & _).
  unfold encrypt_workorder_indata.
  rewrite (bind_lift_ok _ _ (a := v)) by (simpl; now rewrite Hin).
  rewrite (bind_lift_ok _ _ Hsort).
  rewrite (bind_lift_ok _ _ (a := JObj (store "inData" (JArr sorted) p))) by reflexivity.
  rewrite bind_emit.
  rewrite (bind_lift_ok _ _ (a := sorted)) by reflexivity.
  edestruct (encrypt_items_full session_key session_iv data_key data_iv sorted) as (items' & w' & Hrun & Hfull' & Hself); [exact Hsorted|].
  erewrite bind_ok by exact Hrun.
  rewrite (bind_lift_ok _ _ (a := JObj (store "inData" (JArr items') (store "inData" (JArr sorted) p)))) by reflexivity.
  rewrite bind_emit. unfold ret.
  exists sorted, items'. eexists. split; [reflexivity|]. split; [exact Hfull'|exact Hself].
Qed.

Lemma generate_client_signature_full input_json_str worker private_key session_key session_iv encrypted_session_key data_key data_iv w o p w1 :
  json_loads input_json_str = Ok (JObj o) ->
  lookup "params" o = Some (JObj p) ->
  full_params (JObj p) = true ->
  payload_json_check input_json_str w = (Ok true, w1) ->
  HashingAlgorithm (tcs_worker (self w1)) = hashing_algorithm worker ->
  SigningAlgorithm (tcs_worker (self w1)) = signing_algorithm worker ->
  exists signed w',
    generate_client_signature input_json_str worker private_key session_key
      session_iv encrypted_session_key data_key data_iv w = (Ok (Some signed), w').
Proof.
  intros Hload Hparams Hfull Hcheck Hh Hs.
  simpl in Hfull.
  apply andb_true_iff in Hfull as [Hfull Hout].
  apply andb_true_iff in Hfull as [Hhead Hind].
  destruct (lookup "inData" p) as [ind|] eqn:Hin; [|discriminate].
  unfold generate_client_signature.
  erewrite bind_ok by exact Hcheck. cbn [negb].
  rewrite bind_get_self, Hh, Hs, !String.eqb_refl. cbn [negb].
  rewrite (bind_lift_ok _ _ Hload).
  rewrite (bind_lift_ok _ _ (a := JObj p)) by (simpl; now rewrite Hparams).
  rewrite (bind_lift_ok _ _ (a := JObj (store "sessionKeyIv" (JStr (hex_of_bytes session_iv)) p))) by reflexivity.
  edestruct (@encrypt_workorder_indata_full (store "sessionKeyIv" (JStr (hex_of_bytes session_iv)) p) ind session_key session_iv (worker_encryption_key worker) data_key data_iv w1) as (sorted & items' & w2 & Hrun & Hfull' & Hself).
  { rewrite lookup_store_other by discriminate. exact Hin. }
  { exact Hind. }
  erewrite bind_ok by exact Hrun.
  edestruct (header_hash_ok p) as (h1 & Hh1); [exact Hhead|].
  rewrite (bind_lift_ok _ _ (a := h1))
    by (rewrite (@header_hash_agree _ _ p) by solve_agree; exact Hh1).
  rewrite (bind_lift_ok _ _ (a := JArr items')) by apply py_getitem_store_same.
  destruct (full_items_hash_ok items' Hfull') as (h2 & Hh2).
  rewrite (bind_lift_ok _ _ (a := h2))
    by (rewrite calculate_datahash_item_hash; exact Hh2).
  rewrite (bind_lift_ok _ _ (a := present "outData" p))
    by (unfold present; simpl; rewrite !lookup_store_other by discriminate;
        reflexivity).
  unfold present.
  destruct (lookup "outData" p) as [outv|] eqn:Hout'.
  - destruct (full_items_sort_hash_ok outv Hout) as (sorted_out & h3 & Hsort3 & _ & Hh3).
    unfold bind at 1.
    rewrite (bind_lift_ok _ _ (a := outv))
      by (simpl; rewrite !lookup_store_other by discriminate; now rewrite Hout').
    rewrite (bind_lift_ok _ _ Hsort3).
    erewrite bind_lift_ok by reflexivity.
    rewrite (bind_lift_ok _ _ Hh3).
    cbv [bind lift emit ret generate_signature get_self set_self py_setitem fst snd].
    eauto.
  - cbv [bind lift emit ret generate_signature get_self set_self py_setitem fst snd].
    eauto.
Qed.

(** C4, amended.  [generate_client_signature] returns [None] when the
    validator answers [false], and when the validator answers [true] and
    the hashing or the signing algorithm of the worker is not the
    configured one, each time with its own error message as the last log
    entry, and in no other case; when the validator raises, the call
    raises the same exception, whatever the algorithms; when the
    validator answers [true], both algorithms match and the request is
    complete ([full_params]: its identifiers and the [data],
    [encryptedDataEncryptionKey] and [iv] of its items are strings
    without a lone surrogate), it returns the signed request. *)
Theorem generate_client_signature_outcomes input_json_str worker private_key
    session_key session_iv encrypted_session_key data_key data_iv w :
  let run :=
    generate_client_signature input_json_str worker private_key session_key
      session_iv encrypted_session_key data_key data_iv w in
  let hashing_ok :=
    HashingAlgorithm (tcs_worker (self w)) = hashing_algorithm worker in
  let signing_ok :=
    SigningAlgorithm (tcs_worker (self w)) = signing_algorithm worker in
  let validation_log := Log ERROR "ERROR: Signing the request failed" [] in
  let hashing_log :=
    Log ERROR
      "ERROR: Signing the request failed. Hashing algorithm is not supported for %s"
      [JStr (hashing_algorithm worker)] in
  let signing_log :=
    Log ERROR
      "ERROR: Signing the request failed. Signing algorithm is not supported for %s"
      [JStr (signing_algorithm worker)] in
  (forall w1,
      payload_json_check input_json_str w = (Ok false, w1) ->
      run = (Ok None, with_event w1 validation_log))
  /\
  (forall w1,
      payload_json_check input_json_str w = (Ok true, w1) ->
      ~ hashing_ok ->
      run = (Ok None, with_event w1 hashing_log))
  /\
  (forall w1,
      payload_json_check input_json_str w = (Ok true, w1) ->
      hashing_ok -> ~ signing_ok ->
      run = (Ok None, with_event w1 signing_log))
  /\
  (forall w',
      run = (Ok None, w') ->
      exists w1,
        payload_json_check input_json_str w = (Ok false, w1) \/
        (payload_json_check input_json_str w = (Ok true, w1) /\
         (~ hashing_ok \/ ~ signing_ok)))
  /\
  (forall o p w1,
      json_loads input_json_str = Ok (JObj o) ->
      lookup "params" o = Some (JObj p) ->
      full_params (JObj p) = true ->
      payload_json_check input_json_str w = (Ok true, w1) ->
      hashing_ok -> signing_ok ->
      exists signed w', run = (Ok (Some signed), w'))
  /\
  (forall e w1,
      payload_json_check input_json_str w = (Raise e, w1) ->
      run = (Raise e, w1))
  /\
  (validation_log <> hashing_log /\ validation_log <> signing_log
   /\ hashing_log <> signing_log).
Proof.
  intros run hashing_ok signing_ok validation_log hashing_log signing_log.
  subst run hashing_ok signing_ok.
  split; [|split; [|split; [|split; [|split; [|split]]]]].
  - intros w1 Hcheck. unfold generate_client_signature.
    erewrite bind_ok by exact Hcheck. reflexivity.
  - intros w1 Hcheck Hh. unfold generate_client_signature.
    erewrite bind_ok by exact Hcheck. cbn [negb]. rewrite bind_get_self.
    rewrite (payload_json_check_self _ _ Hcheck).
    apply String.eqb_neq in Hh. rewrite Hh. reflexivity.
  - intros w1 Hcheck Hh Hs. unfold generate_client_signature.
    erewrite bind_ok by exact Hcheck. cbn [negb]. rewrite bind_get_self.
    rewrite (payload_json_check_self _ _ Hcheck).
    apply String.eqb_neq in Hs. rewrite Hh, Hs, String.eqb_refl. reflexivity.
  - intros w' H. unfold generate_client_signature in H.
    repeat inv_step H; try discriminate.
    + exists w0. right. split; [exact Ha|]. right.
      rewrite <- (payload_json_check_self _ _ Ha). now apply String.eqb_neq.
    + exists w0. right. split; [exact Ha|]. left.
      rewrite <- (payload_json_check_self _ _ Ha). now apply String.eqb_neq.
    + exists w0. now left.
  - intros o p w1 Hload Hparams Hfull Hcheck Hh Hs.
    eapply generate_client_signature_full; try eassumption;
      now rewrite (payload_json_check_self _ _ Hcheck).
  - intros e w1 Hcheck. unfold generate_client_signature.
    erewrite bind_raise by exact Hcheck. reflexivity.
  - subst validation_log hashing_log signing_log. repeat split; discriminate.
Qed.
End Signer.

Lemma generate_client_signature_outcomes_witness :
  (exists signed w',
      @generate_client_signature toy_crypto (loads_as (request_doc two_items))
        "request" toy_worker "alice" toy_session_key toy_session_iv
        toy_encrypted_session_key None None toy_world
      = (Ok (Some signed), w'))
  /\
  @generate_client_signature toy_crypto (loads_as incomplete_request_doc)
    "request" toy_worker "alice" toy_session_key toy_session_iv
    toy_encrypted_session_key None None toy_world
  = (Ok None,
     {| self := self toy_world;
        trace := [missing_param_log "workerId"; missing_param_log "requesterId";
                  Log ERROR "ERROR: Signing the request failed" []] |}).
Proof.
  split.
  - pose proof (@generate_client_signature_outcomes toy_crypto
                  (loads_as (request_doc two_items)) "request" toy_worker "alice"
                  toy_session_key toy_session_iv toy_encrypted_session_key None None
                  toy_world) as H.
    cbv zeta in H. destruct H as (_ & _ & _ & _ & Hfull & _).
    eapply Hfull; reflexivity.
  - pose proof (@generate_client_signature_outcomes toy_crypto
                  (loads_as incomplete_request_doc) "request" toy_worker "alice"
                  toy_session_key toy_session_iv toy_encrypted_session_key None None
                  toy_world) as H.
    cbv zeta in H. destruct H as (Hfalse & _).
    etransitivity; [apply Hfalse; vm_compute; reflexivity | reflexivity].
Defined.

(** A request whose only input item has the number 7 as [data] passes
    validation with matching algorithms, and signing it raises instead of
    returning the signed request. *)
Lemma validated_request_not_signed :
  @payload_json_check toy_crypto (loads_as (request_doc (JArr [item_with_number])))
    "request" toy_world
  = (Ok true, toy_world) /\
  HashingAlgorithm (tcs_worker (self toy_world)) = hashing_algorithm toy_worker /\
  SigningAlgorithm (tcs_worker (self toy_world)) = signing_algorithm toy_worker /\
  fst (@generate_client_signature toy_crypto
         (loads_as (request_doc (JArr [item_with_number]))) "request" toy_worker
         "alice" toy_session_key toy_session_iv toy_encrypted_session_key None None
         toy_world)
  = Raise (AttributeError "encode") /\
  ~ (exists signed w',
        @generate_client_signature toy_crypto
          (loads_as (request_doc (JArr [item_with_number]))) "request" toy_worker
          "alice" toy_session_key toy_session_iv toy_encrypted_session_key None None
          toy_world
        = (Ok (Some signed), w')).
Proof.
  repeat split; try reflexivity.
  intros (signed & w' & H). vm_compute in H. discriminate.
Qed.

(** * Further properties of the methods *)

(** ** The two hash builders *)

Section HashBuilders.
Context {crypto : Crypto}.

Lemma item_hash_agree o o' :
  agree item_keys o o' -> item_hash_base64 (JObj o) = item_hash_base64 (JObj o').
Proof.
  intros H. unfold item_hash_base64, py_contains, py_getitem.
  rewrite !(H "dataHash"), !(H "data"), !(H "encryptedDataEncryptionKey"), !(H "iv")
    by (simpl; tauto).
  reflexivity.
Qed.

Lemma datahash_loop_app xs ys acc :
  datahash_loop (xs ++ ys) acc
  = Res.bind (datahash_loop xs acc) (fun s => datahash_loop ys s).
Proof.
  revert acc. induction xs as [|x xs IH]; intros acc; cbn [app datahash_loop].
  - reflexivity.
  - destruct (item_hash_base64 x); cbn [Res.bind]; [apply IH | reflexivity].
Qed.

(** X1. [__calculate_hash_on_concatenated_string] reads only the fields
    workOrderId, workerId, workloadId and requesterId of the parameters:
    storing any other field, [requesterNonce] included, changes neither
    its value nor its exception.  An absent [workloadId] gives the same
    result as an empty one. *)
Theorem header_hash_reads_four_fields o nonce :
  (forall k v, ~ In k header_keys ->
      calculate_hash_on_concatenated_string (JObj (store k v o)) nonce
      = calculate_hash_on_concatenated_string (JObj o) nonce)
  /\
  (lookup "workloadId" o = None ->
   calculate_hash_on_concatenated_string (JObj (store "workloadId" (JStr "") o)) nonce
   = calculate_hash_on_concatenated_string (JObj o) nonce).
Proof.
  split.
  - intros k v Hk. apply header_hash_agree, agree_store, Hk.
  - intros Hnone.
    unfold calculate_hash_on_concatenated_string, py_getitem, py_contains.
    rewrite lookup_store_same, Hnone.
    rewrite !lookup_store_other by discriminate.
    reflexivity.
Qed.

(** X2. The header fields are read in the order workOrderId, workerId,
    workloadId, requesterId, and the first required one that is missing
    decides the exception: [KeyError] with its name.  A [workloadId]
    that is present but is not a string raises [AttributeError] before
    [requesterId] is looked at. *)
Theorem header_hash_missing_field o nonce :
  (lookup "workOrderId" o = None ->
   calculate_hash_on_concatenated_string (JObj o) nonce
   = Raise (KeyError "workOrderId"))
  /\
  (forall wo, lookup "workOrderId" o = Some (JStr wo) ->
      lookup "workerId" o = None ->
      calculate_hash_on_concatenated_string (JObj o) nonce
      = Raise (KeyError "workerId"))
  /\
  (forall wo wk, lookup "workOrderId" o = Some (JStr wo) ->
      lookup "workerId" o = Some (JStr wk) ->
      opt_str_field "workloadId" o = true ->
      lookup "requesterId" o = None ->
      calculate_hash_on_concatenated_string (JObj o) nonce
      = Raise (KeyError "requesterId"))
  /\
  (forall wo wk v, lookup "workOrderId" o = Some (JStr wo) ->
      lookup "workerId" o = Some (JStr wk) ->
      lookup "workloadId" o = Some v -> str_key v = None ->
      calculate_hash_on_concatenated_string (JObj o) nonce
      = Raise (AttributeError "encode")).
Proof.
  unfold calculate_hash_on_concatenated_string, py_getitem, py_contains, opt_str_field.
  repeat split.
  - now intros ->.
  - now intros wo -> ->.
  - intros wo wk -> -> Hwl ->.
    destruct (lookup "workloadId" o) as [[]|]; try discriminate; reflexivity.
  - intros wo wk v -> -> -> Hv. destruct v; try discriminate; reflexivity.
Qed.

(** X3. The digest of one item reads only its dataHash, data,
    encryptedDataEncryptionKey and iv: storing any other field leaves it
    unchanged, so the [index] of an item is not part of what is hashed.
    An absent [dataHash] gives the same result as an empty one. *)
Theorem item_hash_ignores_index o :
  (forall k v, ~ In k item_keys ->
      item_hash_base64 (JObj (store k v o)) = item_hash_base64 (JObj o))
  /\
  (forall z, item_hash_base64 (JObj (store "index" (JNum z) o))
             = item_hash_base64 (JObj o))
  /\
  (lookup "dataHash" o = None ->
   item_hash_base64 (JObj (store "dataHash" (JStr "") o)) = item_hash_base64 (JObj o)).
Proof.
  split; [|split].
  - intros k v Hk. apply item_hash_agree, agree_store, Hk.
  - intros z. apply item_hash_agree, agree_store. simpl. intuition discriminate.
  - intros Hnone. unfold item_hash_base64, py_contains, py_getitem.
    rewrite lookup_store_same, Hnone.
    rewrite !lookup_store_other by discriminate. reflexivity.
Qed.

(** X4. [__calculate_datahash] stops at the first item it cannot hash:
    when every item before it hashes, the exception of that item is the
    exception of the whole call, whatever follows it in the list. *)
Theorem datahash_first_failure good bad rest hs e :
  Res.mapM item_hash_base64 good = Ok hs ->
  item_hash_base64 bad = Raise e ->
  calculate_datahash (JArr (good ++ bad :: rest)) = Raise e.
Proof.
  intros Hgood Hbad. unfold calculate_datahash. cbn [py_iter Res.bind].
  rewrite datahash_loop_app.
  assert (Hg : forall acc, exists s, datahash_loop good acc = Ok s).
  { clear Hbad. revert hs Hgood. induction good as [|g good IH]; intros hs Hgood acc.
    - eexists; reflexivity.
    - cbn [Res.mapM] in Hgood. cbn [datahash_loop].
      destruct (item_hash_base64 g); cbn [Res.bind] in *; [|discriminate].
      destruct (Res.mapM item_hash_base64 good) eqn:E; cbn [Res.bind] in *; [|discriminate].
      eapply IH; reflexivity. }
  destruct (Hg "") as (s & ->). cbn [Res.bind datahash_loop]. now rewrite Hbad.
Qed.
End HashBuilders.

Lemma header_hash_reads_four_fields_witness :
  @calculate_hash_on_concatenated_string toy_crypto
    (JObj (store "requesterNonce" (JStr "n") header_only)) []
  = @calculate_hash_on_concatenated_string toy_crypto (JObj header_only) []
  /\
  @calculate_hash_on_concatenated_string toy_crypto
    (JObj (store "workloadId" (JStr "") header_only)) []
  = @calculate_hash_on_concatenated_string toy_crypto (JObj header_only) [].
Proof.
  destruct (@header_hash_reads_four_fields toy_crypto header_only []) as [H1 H2].
  split.
  - apply H1. simpl. intuition discriminate.
  - apply H2. reflexivity.
Defined.

Lemma header_hash_missing_field_witness :
  @calculate_hash_on_concatenated_string toy_crypto
    (JObj [("workerId", JStr "w1"); ("requesterId", JStr "r1")]) []
  = Raise (KeyError "workOrderId")
  /\
  @calculate_hash_on_concatenated_string toy_crypto
    (JObj [("workOrderId", JStr "wo1")]) []
  = Raise (KeyError "workerId")
  /\
  @calculate_hash_on_concatenated_string toy_crypto
    (JObj [("workOrderId", JStr "wo1"); ("workerId", JStr "w1")]) []
  = Raise (KeyError "requesterId")
  /\
  @calculate_hash_on_concatenated_string toy_crypto
    (JObj [("workOrderId", JStr "wo1"); ("workerId", JStr "w1");
           ("workloadId", JNum 7)]) []
  = Raise (AttributeError "encode").
Proof.
  split; [|split; [|split]].
  - apply (@header_hash_missing_field toy_crypto); reflexivity.
  - eapply (@header_hash_missing_field toy_crypto); reflexivity.
  - eapply (@header_hash_missing_field toy_crypto); reflexivity.
  - eapply (@header_hash_missing_field toy_crypto); reflexivity.
Defined.

Lemma item_hash_ignores_index_witness :
  @item_hash_base64 toy_crypto (JObj (store "index" (JStr "first") bare_item))
  = @item_hash_base64 toy_crypto (JObj bare_item)
  /\
  @item_hash_base64 toy_crypto (JObj (store "dataHash" (JStr "") bare_item))
  = @item_hash_base64 toy_crypto (JObj bare_item).
Proof.
  destruct (@item_hash_ignores_index toy_crypto bare_item) as (H1 & _ & H3).
  split.
  - apply H1. simpl. intuition discriminate.
  - apply H3. reflexivity.
Defined.

Lemma datahash_first_failure_witness :
  @calculate_datahash toy_crypto
    (JArr ([item 1 "a" "" ""] ++ item_without_iv :: [item_with_number]))
  = Raise (KeyError "iv").
Proof.
  eapply (@datahash_first_failure toy_crypto); reflexivity.
Defined.

(** ** The encryptor *)

Lemma store_store k v1 v2 o : store k v2 (store k v1 o) = store k v2 o.
Proof.
  induction o as [|[k' v'] o IH]; simpl.
  - now rewrite String.eqb_refl.
  - destruct (String.eqb k k') eqn:E; simpl; rewrite E; [reflexivity | now rewrite IH].
Qed.

Section Encryptor.
Context {crypto : Crypto}.
Variables (session_key session_iv : bytes) (data_key data_iv : option bytes).

Lemma index_of_encrypted_item item :
  index_of (encrypted_item session_key session_iv data_key data_iv item) = index_of item.
Proof.
  destruct item; try reflexivity. simpl.
  now rewrite lookup_store_other by discriminate.
Qed.

Lemma encrypted_items_sorted l :
  StronglySorted index_le l ->
  StronglySorted index_le
    (map (encrypted_item session_key session_iv data_key data_iv) l).
Proof.
  induction 1 as [|x l Hl IH Hx]; cbn [map]; constructor.
  - exact IH.
  - rewrite Forall_forall in *. intros y Hy. apply in_map_iff in Hy as (y0 & <- & Hy0).
    unfold index_le. rewrite !index_of_encrypted_item. now apply Hx.
Qed.

Lemma encrypt_items_map items (w : world) :
  forallb encryptable items = true ->
  encrypt_items session_key session_iv data_key data_iv items w
  = (Ok (map (encrypted_item session_key session_iv data_key data_iv) items),
     {| self := self w;
        trace := trace w
                 ++ flat_map (encryption_logs session_key session_iv data_key data_iv)
                      items |}).
Proof.
  revert w. induction items as [|item items IH]; intros w H.
  - simpl. unfold ret. rewrite app_nil_r. now destruct w.
  - simpl in H. apply andb_true_iff in H as [Hitem Hitems].
    destruct item as [| | | | | |o]; try discriminate.
    simpl in Hitem. apply andb_true_iff in Hitem as [Hd Hk].
    unfold str_field in Hd, Hk.
    field_cases Hd "data" o. field_cases Hk "encryptedDataEncryptionKey" o.
    cbn [encrypt_items map flat_map].
    erewrite bind_ok by (apply encrypt_item_policy; eassumption).
    erewrite bind_ok by (apply IH, Hitems). unfold ret. cbn [self trace].
    cbn [encrypted_item encryption_logs]. unfold str_or_empty. rewrite E, E0.
    now rewrite app_assoc.
Qed.

(** X5. On a list of items whose [data] and key selector are strings
    without a lone surrogate ([JStr], which [encode] accepts) the
    encryption loop does not raise, keeps the number and the order of the
    items, and changes only [data] in each: to the base64 of the data
    encrypted under the session key when the selector is empty or the
    text null, to the base64 of the clear data when it is "-", and to
    the base64 of the data encrypted under the data key for any other
    selector.  The instance is not changed. *)
Theorem encrypt_items_policy items (w : world) :
  forallb encryptable items = true ->
  exists items' w',
    encrypt_items session_key session_iv data_key data_iv items w = (Ok items', w') /\
    self w' = self w /\
    Forall2
      (fun item item' =>
         exists o data e_key,
           item = JObj o /\
           lookup "data" o = Some (JStr data) /\
           lookup "encryptedDataEncryptionKey" o = Some (JStr e_key) /\
           item' = JObj (store "data"
                           (JStr (if String.eqb e_key "" || String.eqb e_key "null"
                                  then byte_array_to_base64
                                         (encrypt_data (encode data) (Some session_key)
                                            (Some session_iv))
                                  else if String.eqb e_key "-"
                                  then byte_array_to_base64 (encode data)
                                  else byte_array_to_base64
                                         (encrypt_data (encode data) data_key data_iv)))
                           o))
      items items'.
Proof.
  intros H. do 2 eexists. split; [apply encrypt_items_map, H|].
  split; [reflexivity|].
  induction items as [|item items IH]; cbn [map]; constructor.
  - simpl in H. apply andb_true_iff in H as [Hitem _].
    destruct item as [| | | | | |o]; try discriminate.
    simpl in Hitem. apply andb_true_iff in Hitem as [Hd Hk].
    unfold str_field in Hd, Hk.
    field_cases Hd "data" o. field_cases Hk "encryptedDataEncryptionKey" o.
    do 3 eexists. split; [reflexivity|]. split; [exact E|]. split; [exact E0|].
    cbn [encrypted_item]. unfold str_or_empty. rewrite E, E0. reflexivity.
  - apply IH. simpl in H. now apply andb_true_iff in H as [_ H].
Qed.

(** X6. [__encrypt_workorder_indata] on parameters whose [inData] items
    have integer indices and, for [data] and selector, strings without a
    lone surrogate ([JStr], which [encode] accepts): the result is
    the input parameters with [inData] replaced by the items sorted by
    index and then encrypted, every other parameter is untouched, the
    worker encryption key plays no part, the indices come out ascending
    and are those of the input; the log is the opening line, the lines
    of the items in sorted order and the closing line. *)
Theorem encrypt_workorder_indata_result p items wek (w : world) :
  lookup "inData" p = Some (JArr items) ->
  forallb int_indexed items = true ->
  forallb encryptable items = true ->
  let out := map (encrypted_item session_key session_iv data_key data_iv)
               (sorted_by_index items) in
  encrypt_workorder_indata (JObj p) session_key session_iv wek data_key data_iv w
  = (Ok (JObj (store "inData" (JArr out) p)),
     {| self := self w;
        trace := trace w ++ [Log INFO "Encrypting Workorder Data" []]
                 ++ flat_map (encryption_logs session_key session_iv data_key data_iv)
                      (sorted_by_index items)
                 ++ [Log DEBUG "Workorder InData after encryption: %s" [JArr out]] |})
  /\ (forall k, k <> "inData" -> lookup k (store "inData" (JArr out) p) = lookup k p)
  /\ StronglySorted index_le out
  /\ Permutation (map index_of out) (map index_of items).
Proof.
  intros Hin Hint Henc out.
  assert (Hmap : map index_of out = map index_of (sorted_by_index items)).
  { unfold out. rewrite map_map. apply map_ext, index_of_encrypted_item. }
  split; [|split; [|split]].
  - unfold encrypt_workorder_indata.
    rewrite (bind_lift_ok _ _ (a := JArr items)) by (simpl; now rewrite Hin).
    rewrite (bind_lift_ok _ _ (py_sort_by_index_int _ Hint)).
    rewrite (bind_lift_ok _ _ (a := JObj (store "inData" (JArr (sorted_by_index items)) p)))
      by reflexivity.
    rewrite bind_emit.
    rewrite (bind_lift_ok _ _ (a := sorted_by_index items)) by reflexivity.
    assert (Henc' : forallb encryptable (sorted_by_index items) = true)
      by (eapply forallb_perm; [apply Permutation_sym, sorted_by_index_perm | exact Henc]).
    erewrite bind_ok by (apply encrypt_items_map, Henc').
    erewrite bind_lift_ok by reflexivity.
    rewrite bind_emit. unfold ret. cbn [self trace]. rewrite store_store.
    fold out. now rewrite <- !app_assoc.
  - intros k Hk. now apply lookup_store_other.
  - apply encrypted_items_sorted, sorted_by_index_sorted.
  - rewrite Hmap. apply Permutation_map, sorted_by_index_perm.
Qed.
End Encryptor.

Lemma encrypt_items_policy_witness :
  exists items' w',
    @encrypt_items toy_crypto toy_session_key toy_session_iv None None
      [item 2 "b" "-" ""; item 1 "a" "" ""] toy_world
    = (Ok items', w') /\
    self w' = self toy_world /\
    Forall2
      (fun item item' =>
         exists o data e_key,
           item = JObj o /\
           lookup "data" o = Some (JStr data) /\
           lookup "encryptedDataEncryptionKey" o = Some (JStr e_key) /\
           item' = JObj (store "data"
                           (JStr (if String.eqb e_key "" || String.eqb e_key "null"
                                  then string_of_list_byte (toy_session_key ++ encode data)
                                  else if String.eqb e_key "-"
                                  then string_of_list_byte (encode data)
                                  else string_of_list_byte (encode data)))
                           o))
      [item 2 "b" "-" ""; item 1 "a" "" ""] items'.
Proof.
  apply (@encrypt_items_policy toy_crypto toy_session_key toy_session_iv None None
           [item 2 "b" "-" ""; item 1 "a" "" ""] toy_world).
  reflexivity.
Defined.

Lemma encrypt_workorder_indata_result_witness :
  fst (@encrypt_workorder_indata toy_crypto (request_params two_items)
         toy_session_key toy_session_iv "wek" None None toy_world)
  = Ok (request_params (JArr [item 1 "Ka" "" ""; item 2 "b" "-" ""])).
Proof.
  pose proof (@encrypt_workorder_indata_result toy_crypto toy_session_key
                toy_session_iv None None
                [("requesterNonce", JStr ""); ("workOrderId", JStr "wo1");
                 ("workerId", JStr "w1"); ("workloadId", JStr "wl1");
                 ("requesterId", JStr "r1"); ("inData", two_items)]
                [item 2 "b" "-" ""; item 1 "a" "" ""] "wek" toy_world
                eq_refl eq_refl eq_refl) as H.
  cbv zeta in H. destruct H as (H & _).
  exact (f_equal fst H).
Defined.

(** ** The signer: what it writes and what it keeps *)

Lemma map_fst_store k v o :
  lookup k o <> None -> map fst (store k v o) = map fst o.
Proof.
  induction o as [|[k' v'] o IH]; simpl.
  - congruence.
  - destruct (String.eqb k k'); simpl; [reflexivity|].
    intros H. now rewrite IH.
Qed.

Ltac fwd H :=
  match type of H with
  | bind (lift ?r) _ _ = _ =>
      let E := fresh "E" in
      destruct r eqn:E;
      [ rewrite (bind_lift_ok _ _ eq_refl) in H
      | rewrite (bind_lift_raise _ _ eq_refl) in H ]
  | bind (emit _) _ _ = _ => rewrite bind_emit in H
  | bind get_self _ _ = _ => rewrite bind_get_self in H
  | bind (set_self _) _ _ = _ => rewrite bind_set_self in H
  | bind (if ?b then _ else _) _ _ = _ => destruct b
  | bind ?c _ ?w = _ =>
      let E := fresh "E" in
      destruct (c w) as [[?|?] ?] eqn:E;
      [ rewrite (bind_ok _ _ _ E) in H | rewrite (bind_raise _ _ _ E) in H ]
  | (if negb ?b then _ else _) _ = _ => destruct b eqn:?; cbn [negb] in H
  | (if ?b then _ else _) _ = _ => destruct b eqn:?
  | ret _ _ = _ => unfold ret in H
  end.

Section SignerShape.
Context {crypto : Crypto} {jsonm : JsonModule}.

Lemma encrypt_item_self sk siv dk div item (w : world) r w' :
  encrypt_item sk siv dk div item w = (r, w') -> self w' = self w.
Proof.
  unfold encrypt_item.
  repeat (unfold bind at 1, lift;
          match goal with
          | |- context [match ?x with Ok _ => _ | Raise _ => _ end] =>
              destruct x; [|now intros [= _ <-]]
          end).
  destruct (_ || _); [|destruct (bytes_eqb _ _)].
  - unfold bind at 1, lift. destruct (py_setitem _ _ _); [|now intros [= _ <-]].
    rewrite bind_emit. unfold ret. now intros [= _ <-].
  - unfold lift. now intros [= _ <-].
  - unfold bind at 1, lift. destruct (py_setitem _ _ _); [|now intros [= _ <-]].
    rewrite bind_emit. unfold ret. now intros [= _ <-].
Qed.

Lemma keeps_self_lift {A} (r : result A) : keeps_self (lift r).
Proof. intros w r' w'. unfold lift. now intros [= _ <-]. Qed.

Lemma keeps_self_ret {A} (a : A) : keeps_self (ret a).
Proof. intros w r' w'. unfold ret. now intros [= _ <-]. Qed.

Lemma keeps_self_emit ev : keeps_self (emit ev).
Proof. intros w r' w'. unfold emit. now intros [= _ <-]. Qed.

Lemma keeps_self_get_self : keeps_self get_self.
Proof. intros w r' w'. unfold get_self. now intros [= _ <-]. Qed.

Lemma keeps_self_bind {A B} (c : M A) (k : A -> M B) :
  keeps_self c -> (forall a, keeps_self (k a)) -> keeps_self (bind c k).
Proof.
  intros Hc Hk w r w'. unfold bind.
  destruct (c w) as [[a|e] w1] eqn:E; apply Hc in E.
  - intros H. apply Hk in H. congruence.
  - intros [= _ <-]. exact E.
Qed.

Ltac keeps_self_step :=
  first
    [ apply keeps_self_lift | apply keeps_self_ret | apply keeps_self_emit
    | apply keeps_self_get_self
    | apply keeps_self_bind; [|intros ?]
    | match goal with
      | |- keeps_self (if ?b then _ else _) => destruct b
      | |- keeps_self (match ?x with _ => _ end) => destruct x
      end ].

Lemma keeps_self_encrypt_items sk siv dk div items :
  keeps_self (encrypt_items sk siv dk div items).
Proof.
  induction items as [|item items IH]; cbn [encrypt_items].
  - apply keeps_self_ret.
  - apply keeps_self_bind; [intros w r w'; apply encrypt_item_self|intros a].
    apply keeps_self_bind; [exact IH|intros b]. apply keeps_self_ret.
Qed.

Lemma keeps_self_encrypt_workorder_indata p sk siv wek dk div :
  keeps_self (encrypt_workorder_indata p sk siv wek dk div).
Proof.
  unfold encrypt_workorder_indata.
  repeat first [apply keeps_self_encrypt_items | keeps_self_step].
Qed.

Lemma keeps_self_payload_json_check s : keeps_self (payload_json_check s).
Proof. intros w r w'. apply payload_json_check_self. Qed.

Lemma keeps_self_check_signature worker sig h : keeps_self (check_signature worker sig h).
Proof.
  unfold check_signature.
  repeat keeps_self_step.
Qed.

Lemma keeps_self_verify_signature s worker : keeps_self (verify_signature s worker).
Proof.
  unfold verify_signature.
  repeat first [apply keeps_self_check_signature | keeps_self_step].
Qed.

Lemma encrypt_workorder_indata_inv p sk siv wek dk div (w : world) r w1 :
  encrypt_workorder_indata p sk siv wek dk div w = (Ok r, w1) ->
  exists o v1 v2,
    p = JObj o /\ r = JObj (store "inData" v2 (store "inData" v1 o)).
Proof.
  unfold encrypt_workorder_indata. intros H. repeat inv_step H.
  injection H as <- _.
  apply py_setitem_inv in Ha1 as (o & -> & ->).
  apply py_setitem_inv in Ha4 as (? & [= <-] & ->).
  eauto.
Qed.

Lemma generate_client_signature_shape input_json_str worker private_key session_key
    session_iv encrypted_session_key data_key data_iv (w w' : world) signed :
  generate_client_signature input_json_str worker private_key session_key
    session_iv encrypted_session_key data_key data_iv w = (Ok (Some signed), w') ->
  exists o0 p0 v1 v2 base digest_hex signature,
    json_loads input_json_str = Ok (JObj o0) /\
    lookup "params" o0 = Some (JObj p0) /\
    let pe := store "inData" v2
                (store "inData" v1
                   (store "sessionKeyIv" (JStr (hex_of_bytes session_iv)) p0)) in
    (base = pe \/ exists sorted, base = store "outData" sorted pe) /\
    signed = json_dumps
               (JObj (store "params"
                        (JObj (signed_params encrypted_session_key
                                 private_key digest_hex signature base))
                        o0)) /\
    self w' = with_keys (self w) private_key.
Proof.
  intros H. unfold generate_client_signature in H.
  repeat inv_step H; try discriminate.
  assert (Hself : self w1 = self w).
  { apply keeps_self_encrypt_workorder_indata in Ha3.
    apply payload_json_check_self in Ha. congruence. }
  apply encrypt_workorder_indata_inv in Ha3 as (o & v1 & v2 & -> & ->).
  apply py_setitem_inv in Ha2 as (p0 & -> & [= ->]).
  destruct a0 as [| | | | | |o0]; try discriminate.
  simpl in Ha1. destruct (lookup "params" o0) as [p|] eqn:Hp; [|discriminate].
  injection Ha1 as ->.
  assert (Hbase : exists base,
             fst a8 = JObj base /\ self w2 = self w /\
             (base = store "inData" v2
                       (store "inData" v1
                          (store "sessionKeyIv" (JStr (hex_of_bytes session_iv)) p0))
              \/ exists sorted,
                  base = store "outData" sorted
                           (store "inData" v2
                              (store "inData" v1
                                 (store "sessionKeyIv"
                                    (JStr (hex_of_bytes session_iv)) p0))))).
  { repeat inv_step Ha8.
    - injection Ha8 as <- <-.
      match goal with
      | Hs : py_setitem _ "outData" _ = Ok _ |- _ => simpl in Hs; injection Hs as <-
      end.
      eexists. split; [reflexivity|]. split; [exact Hself|]. right. eauto.
    - injection Ha8 as <- <-. eexists. split; [reflexivity|]. split; [exact Hself|].
      now left. }
  destruct Hbase as (base & Hfst & Hself2 & Hbase). rewrite Hfst in Ha9.
  unfold generate_signature in Ha10. repeat inv_step Ha10.
  injection Ha10 as <- <-. injection H as <- <-.
  cbn [self public_key] in *.
  apply py_setitem_inv in Ha9 as (? & [= <-] & ->).
  apply py_setitem_inv in Ha11 as (? & [= <-] & ->).
  apply py_setitem_inv in Ha12 as (? & [= <-] & ->).
  apply py_setitem_inv in Ha13 as (? & [= <-] & ->).
  apply py_setitem_inv in Ha14 as (? & [= <-] & ->).
  simpl in Ha15. injection Ha15 as <-.
  exists o0, p0, v1, v2, base. do 2 eexists.
  split; [exact Ha0|]. split; [exact Hp|]. cbv zeta.
  split; [exact Hbase|]. split; [reflexivity|].
  unfold with_keys. now rewrite Hself2.
Qed.


(** X7. In a signed request the parameters carry [sessionKeyIv] and
    [encryptedSessionKey] as the lower-case hex of the session iv and of
    the encrypted session key, [verifyingKey] as the serialized public
    key of the signing key, and [requesterNonce] as the base64 digest of
    the fresh 16-byte nonce, whatever nonce the caller had put there. *)
Theorem signed_request_fields input_json_str worker private_key session_key
    session_iv encrypted_session_key data_key data_iv (w w' : world) signed :
  generate_client_signature input_json_str worker private_key session_key
    session_iv encrypted_session_key data_key data_iv w = (Ok (Some signed), w') ->
  exists input_json params,
    signed = json_dumps input_json /\
    py_getitem input_json "params" = Ok (JObj params) /\
    lookup "sessionKeyIv" params = Some (JStr (hex_of_bytes session_iv)) /\
    lookup "encryptedSessionKey" params
    = Some (JStr (hex_of_bytes encrypted_session_key)) /\
    lookup "verifyingKey" params
    = Some (JStr (GetPublicKey_Serialize private_key)) /\
    lookup "requesterNonce" params
    = Some (JStr (byte_array_to_base64
                    (compute_message_hash (random_bit_string NO_OF_BYTES)))).
Proof.
  intros H.
  apply generate_client_signature_shape in H
    as (o0 & p0 & v1 & v2 & base & dh & sg & _ & _ & Hbase & -> & _).
  do 2 eexists. split; [reflexivity|]. split.
  { simpl. rewrite lookup_store_same. reflexivity. }
  unfold signed_params.
  repeat split.
  - rewrite !lookup_store_other by discriminate.
    destruct Hbase as [->|(sorted & ->)];
      rewrite !lookup_store_other by discriminate; apply lookup_store_same.
  - rewrite !lookup_store_other by discriminate. apply lookup_store_same.
  - rewrite !lookup_store_other by discriminate. apply lookup_store_same.
  - apply lookup_store_same.
Qed.

(** X8. Signing keeps the rest of the request: the returned document has
    the keys of the input document in the same order, differs from it
    only in [params], and its parameters differ from the input
    parameters only in the eight keys signing writes. *)
Theorem signed_request_keeps_rest input_json_str worker private_key session_key
    session_iv encrypted_session_key data_key data_iv (w w' : world) signed :
  generate_client_signature input_json_str worker private_key session_key
    session_iv encrypted_session_key data_key data_iv w = (Ok (Some signed), w') ->
  exists o0 p0 o p,
    json_loads input_json_str = Ok (JObj o0) /\
    lookup "params" o0 = Some (JObj p0) /\
    signed = json_dumps (JObj o) /\
    lookup "params" o = Some (JObj p) /\
    (forall k, k <> "params" -> lookup k o = lookup k o0) /\
    (forall k, ~ In k written_keys -> lookup k p = lookup k p0) /\
    map fst o = map fst o0.
Proof.
  intros H.
  apply generate_client_signature_shape in H
    as (o0 & p0 & v1 & v2 & base & dh & sg & Hload & Hp & Hbase & -> & _).
  exists o0, p0. do 2 eexists.
  split; [exact Hload|]. split; [exact Hp|]. split; [reflexivity|].
  split; [apply lookup_store_same|]. split; [|split].
  - intros k Hk. now apply lookup_store_other.
  - intros k Hk. unfold signed_params. simpl in Hk.
    assert (Hne : forall k', In k' written_keys -> k <> k').
    { intros k' Hin ->. apply Hk. exact Hin. }
    rewrite !lookup_store_other by (apply Hne; simpl; tauto).
    destruct Hbase as [->|(sorted & ->)];
      rewrite !lookup_store_other by (apply Hne; simpl; tauto); reflexivity.
  - apply map_fst_store. now rewrite Hp.
Qed.
End SignerShape.


Lemma signed_request_fields_witness :
  exists input_json params,
    "<json text>" = @json_dumps (loads_as (request_doc two_items)) input_json /\
    py_getitem input_json "params" = Ok (JObj params) /\
    lookup "sessionKeyIv" params = Some (JStr "49") /\
    lookup "encryptedSessionKey" params = Some (JStr "45") /\
    lookup "verifyingKey" params = Some (JStr "alice") /\
    lookup "requesterNonce" params
    = Some (JStr (@byte_array_to_base64 toy_crypto
                    (@compute_message_hash toy_crypto
                       (@random_bit_string toy_crypto NO_OF_BYTES)))).
Proof.
  eapply (@signed_request_fields toy_crypto (loads_as (request_doc two_items))
            "request" toy_worker "alice" toy_session_key toy_session_iv
            toy_encrypted_session_key None None toy_world).
  vm_compute. reflexivity.
Defined.

Lemma signed_request_keeps_rest_witness :
  exists o0 p0 o p,
    @json_loads (loads_as (request_doc two_items)) "request" = Ok (JObj o0) /\
    lookup "params" o0 = Some (JObj p0) /\
    "<json text>" = @json_dumps (loads_as (request_doc two_items)) (JObj o) /\
    lookup "params" o = Some (JObj p) /\
    (forall k, k <> "params" -> lookup k o = lookup k o0) /\
    (forall k, ~ In k written_keys -> lookup k p = lookup k p0) /\
    map fst o = map fst o0.
Proof.
  eapply (@signed_request_keeps_rest toy_crypto (loads_as (request_doc two_items))
            "request" toy_worker "alice" toy_session_key toy_session_iv
            toy_encrypted_session_key None None toy_world).
  vm_compute. reflexivity.
Defined.


(** ** The verifier: what it reads and what it leaves alone *)

Section Verifier.
Context {crypto : Crypto} {jsonm : JsonModule}.

Lemma negative_code_agree r r' :
  lookup "code" r = lookup "code" r' ->
  negative_code (JObj r) = negative_code (JObj r').
Proof.
  intros H. unfold negative_code. cbn [py_keys Res.bind py_getitem].
  now rewrite !existsb_keys, H.
Qed.

Lemma response_final_hash_agree r r' :
  agree verified_keys r r' ->
  response_final_hash (JObj r) = response_final_hash (JObj r').
Proof.
  intros H. unfold response_final_hash. cbn [py_getitem].
  rewrite (H "workerNonce"), (H "workerSignature"), (H "outData") by (simpl; tauto).
  destruct (lookup "workerNonce" r') as [n|]; [|reflexivity]. cbn [Res.bind].
  destruct (py_encode n) as [nonce|]; [|reflexivity]. cbn [Res.bind].
  destruct (lookup "workerSignature" r'); [|reflexivity]. cbn [Res.bind].
  rewrite (@header_hash_agree _ r r')
    by (intros k Hk; apply H; simpl in *; tauto).
  reflexivity.
Qed.

Lemma verify_signature_congr s s' worker (w : world) o o' r r' :
  json_loads s = Ok (JObj o) -> json_loads s' = Ok (JObj o') ->
  (lookup "error" o = None <-> lookup "error" o' = None) ->
  lookup "result" o = Some r -> lookup "result" o' = Some r' ->
  negative_code r' = negative_code r ->
  response_final_hash r' = response_final_hash r ->
  verify_signature s' worker w = verify_signature s worker w.
Proof.
  intros Hs Hs' Herr Hr Hr' Hcode Hhash. unfold verify_signature.
  rewrite (bind_lift_ok _ _ Hs), (bind_lift_ok _ _ Hs'), !bind_get_self.
  destruct (negb _); [reflexivity|]. destruct (negb _); [reflexivity|].
  rewrite !(bind_lift_ok _ _ (a := map fst _)) by reflexivity.
  rewrite !existsb_keys.
  assert (He : match lookup "error" o' with Some _ => true | None => false end
               = match lookup "error" o with Some _ => true | None => false end).
  { destruct (lookup "error" o), (lookup "error" o'); try reflexivity;
      destruct Herr as [H1 H2]; try (now discriminate H1); now discriminate H2. }
  rewrite He. destruct (lookup "error" o); [reflexivity|].
  assert (Hg : py_getitem (JObj o) "result" = Ok r) by (simpl; now rewrite Hr).
  assert (Hg' : py_getitem (JObj o') "result" = Ok r') by (simpl; now rewrite Hr').
  rewrite (bind_lift_ok _ _ Hg), (bind_lift_ok _ _ Hg').
  rewrite Hcode, Hhash. reflexivity.
Qed.

(** X10. The outcome of [verify_signature] depends on the response only
    through the presence of [error] and through the fields code,
    workerNonce, workerSignature, workOrderId, workerId, workloadId,
    requesterId and outData of [result]: two responses that agree there
    get the same outcome, the same log and the same call of the
    verification primitive; a field of [result] outside this list is not
    covered by the verification. *)
Theorem verify_signature_reads s s' worker (w : world) o o' r r' :
  json_loads s = Ok (JObj o) -> json_loads s' = Ok (JObj o') ->
  (lookup "error" o = None <-> lookup "error" o' = None) ->
  lookup "result" o = Some (JObj r) -> lookup "result" o' = Some (JObj r') ->
  agree verified_keys r r' ->
  verify_signature s' worker w = verify_signature s worker w.
Proof.
  intros Hs Hs' Herr Hr Hr' Hagree.
  eapply verify_signature_congr; try eassumption.
  - apply negative_code_agree. symmetry. apply Hagree. simpl. tauto.
  - symmetry. now apply response_final_hash_agree.
Qed.

(** X11. The order in which a response lists its output items does not
    matter when their indices are distinct integers: a response whose
    [outData] is a permutation of another's, everything else read by the
    verification being equal, gets the same outcome. *)
Theorem verify_signature_out_data_order s s' worker (w : world) o o' r r' items items' :
  json_loads s = Ok (JObj o) -> json_loads s' = Ok (JObj o') ->
  (lookup "error" o = None <-> lookup "error" o' = None) ->
  lookup "result" o = Some (JObj r) -> lookup "result" o' = Some (JObj r') ->
  lookup "outData" r = Some (JArr items) ->
  lookup "outData" r' = Some (JArr items') ->
  (forall k, In k verified_keys -> k <> "outData" -> lookup k r = lookup k r') ->
  forallb int_indexed items = true ->
  NoDup (map index_of items) ->
  Permutation items items' ->
  verify_signature s' worker w = verify_signature s worker w.
Proof.
  intros Hs Hs' Herr Hr Hr' Hout Hout' Hagree Hint Hnodup Hperm.
  eapply verify_signature_congr; try eassumption.
  - apply negative_code_agree. symmetry. apply Hagree; [simpl; tauto|discriminate].
  - unfold response_final_hash. cbn [py_getitem].
    rewrite <- (Hagree "workerNonce"), <- (Hagree "workerSignature")
      by (try discriminate; simpl; tauto).
    rewrite Hout, Hout'.
    destruct (lookup "workerNonce" r) as [n|]; [|reflexivity]. cbn [Res.bind].
    destruct (py_encode n) as [nonce|]; [|reflexivity]. cbn [Res.bind].
    destruct (lookup "workerSignature" r); [|reflexivity]. cbn [Res.bind].
    rewrite (@header_hash_agree _ r' r).
    2:{ intros k Hk. symmetry. apply Hagree.
        - simpl in *. tauto.
        - intros ->. simpl in Hk. intuition discriminate. }
    destruct (calculate_hash_on_concatenated_string (JObj r) nonce); [|reflexivity].
    cbn [Res.bind].
    rewrite (py_sort_by_index_int _ Hint).
    rewrite (py_sort_by_index_int items')
      by (eapply forallb_perm; eassumption).
    now rewrite (sorted_by_index_unique Hperm Hnodup).
Qed.

(** X12. [verify_signature] is read-only on the instance: whatever the
    response, and whether the call returns or raises, the keys and the
    configuration are as before; what was logged before is kept and at
    most one event is appended. *)
Theorem verify_signature_read_only s worker (w : world) r w' :
  verify_signature s worker w = (r, w') ->
  self w' = self w /\
  exists events, trace w' = (trace w ++ events)%list /\ (List.length events <= 1)%nat.
Proof.
  intros H. split.
  { now apply keeps_self_verify_signature in H. }
  unfold verify_signature in H. repeat fwd H.
  all: try (unfold check_signature in H;
            destruct (SIG_PublicKey _); repeat fwd H).
  all: injection H as _ <-; cbn [trace].
  all: first [ exists []; split; [now rewrite app_nil_r | simpl; lia]
             | eexists; split; [reflexivity | simpl; lia] ].
Qed.

(** X13. The response text is parsed first, so a text that does not
    parse raises even for a worker whose algorithms are not the
    configured ones.  Once it parses, a hashing algorithm other than the
    configured one gives [ERROR_RESPONSE] with one error line naming it,
    whatever the response holds; the signing algorithm is compared only
    after the hashing algorithm matched. *)
Theorem verify_signature_algorithm_mismatch s worker (w : world) :
  (forall e, json_loads s = Raise e -> verify_signature s worker w = (Raise e, w))
  /\
  (forall doc, json_loads s = Ok doc ->
     HashingAlgorithm (tcs_worker (self w)) <> hashing_algorithm worker ->
     verify_signature s worker w
     = (Ok ERROR_RESPONSE,
        with_event w
          (Log ERROR
             "ERROR: Signing the request failed. Hashing algorithm is not supported for %s"
             [JStr (hashing_algorithm worker)])))
  /\
  (forall doc, json_loads s = Ok doc ->
     HashingAlgorithm (tcs_worker (self w)) = hashing_algorithm worker ->
     SigningAlgorithm (tcs_worker (self w)) <> signing_algorithm worker ->
     verify_signature s worker w
     = (Ok ERROR_RESPONSE,
        with_event w
          (Log ERROR
             "ERROR: Signing the request failed. Signing algorithm is not supported for %s"
             [JStr (signing_algorithm worker)]))).
Proof.
  unfold verify_signature. split; [|split].
  - intros e He. now rewrite (bind_lift_raise _ _ He).
  - intros doc Hdoc Hne. rewrite (bind_lift_ok _ _ Hdoc), bind_get_self.
    apply String.eqb_neq in Hne. rewrite Hne. cbn [negb].
    now rewrite bind_emit.
  - intros doc Hdoc Heq Hne. rewrite (bind_lift_ok _ _ Hdoc), bind_get_self.
    apply String.eqb_eq in Heq. apply String.eqb_neq in Hne. rewrite Heq, Hne.
    cbn [negb]. now rewrite bind_emit.
Qed.
End Verifier.

Lemma verify_signature_reads_witness :
  @verify_signature toy_crypto three_responses "annotated" toy_worker toy_world
  = @verify_signature toy_crypto three_responses "signed" toy_worker toy_world.
Proof.
  eapply (@verify_signature_reads toy_crypto three_responses "signed" "annotated").
  - reflexivity.
  - reflexivity.
  - split; reflexivity.
  - reflexivity.
  - reflexivity.
  - intros k Hk. simpl in Hk.
    repeat (destruct Hk as [<-|Hk]; [reflexivity|]). contradiction.
Defined.

Lemma verify_signature_out_data_order_witness :
  @verify_signature toy_crypto three_responses "reordered" toy_worker toy_world
  = @verify_signature toy_crypto three_responses "signed" toy_worker toy_world.
Proof.
  eapply (@verify_signature_out_data_order toy_crypto three_responses
            "signed" "reordered").
  - reflexivity.
  - reflexivity.
  - split; reflexivity.
  - reflexivity.
  - reflexivity.
  - reflexivity.
  - reflexivity.
  - intros k Hk Hne. simpl in Hk.
    repeat (destruct Hk as [<-|Hk]; [try reflexivity; now elim Hne|]).
    contradiction.
  - reflexivity.
  - simpl. repeat constructor; simpl; intuition discriminate.
  - apply perm_swap.
Defined.

Lemma verify_signature_read_only_witness :
  self (snd (@verify_signature toy_crypto three_responses "signed" toy_worker
               toy_world))
  = self toy_world /\
  exists events,
    trace (snd (@verify_signature toy_crypto three_responses "signed" toy_worker
                  toy_world))
    = (trace toy_world ++ events)%list /\ (List.length events <= 1)%nat.
Proof.
  exact (@verify_signature_read_only toy_crypto three_responses "signed" toy_worker
           toy_world _ _ (surjective_pairing _)).
Defined.

Lemma verify_signature_algorithm_mismatch_witness :
  @verify_signature toy_crypto three_responses "unknown" toy_worker_other_hash
    toy_world
  = (Raise JSONDecodeError, toy_world)
  /\
  @verify_signature toy_crypto three_responses "signed" toy_worker_other_hash
    toy_world
  = (Ok ERROR_RESPONSE,
     with_event toy_world
       (Log ERROR
          "ERROR: Signing the request failed. Hashing algorithm is not supported for %s"
          [JStr "KECCAK-256"]))
  /\
  @verify_signature toy_crypto three_responses "signed" toy_worker_other_signing
    toy_world
  = (Ok ERROR_RESPONSE,
     with_event toy_world
       (Log ERROR
          "ERROR: Signing the request failed. Signing algorithm is not supported for %s"
          [JStr "RSA-OAEP-3072"])).
Proof.
  split; [|split].
  - apply (@verify_signature_algorithm_mismatch toy_crypto three_responses).
    reflexivity.
  - eapply (@verify_signature_algorithm_mismatch toy_crypto three_responses).
    + reflexivity.
    + discriminate.
  - eapply (@verify_signature_algorithm_mismatch toy_crypto three_responses).
    + reflexivity.
    + reflexivity.
    + discriminate.
Defined.

(** ** Sorting by index: stability and missing indices *)

Lemma filter_insert z (x : Z * json) l :
  filter (fun p => fst p =? z) (insert Z.leb x l)
  = filter (fun p => fst p =? z) (x :: l).
Proof.
  induction l as [|y l IH]; cbn [insert]; [reflexivity|].
  destruct (Z.leb_spec (fst x) (fst y)) as [Hle|Hlt]; [reflexivity|].
  cbn [filter] in *. rewrite IH.
  destruct (Z.eqb_spec (fst x) z) as [Hx|Hx], (Z.eqb_spec (fst y) z) as [Hy|Hy];
    try reflexivity.
  lia.
Qed.

Lemma filter_isort z (l : list (Z * json)) :
  filter (fun p => fst p =? z) (isort Z.leb l) = filter (fun p => fst p =? z) l.
Proof.
  induction l as [|x l IH]; [reflexivity|].
  cbn [isort fold_right]. fold (isort Z.leb l).
  rewrite filter_insert. cbn [filter]. now rewrite IH.
Qed.

Lemma filter_map_snd z (l : list (Z * json)) :
  Forall (fun p => fst p = index_of (snd p)) l ->
  filter (fun item => index_of item =? z) (map snd l)
  = map snd (filter (fun p => fst p =? z) l).
Proof.
  induction 1 as [|p l Hp Hl IH]; [reflexivity|].
  cbn [map filter]. rewrite Hp, IH. now destruct (index_of (snd p) =? z).
Qed.

Lemma keyed_fst items : Forall (fun p => fst p = index_of (snd p)) (keyed items).
Proof.
  unfold keyed. apply Forall_forall. intros p Hp.
  apply in_map_iff in Hp as (item & <- & _). reflexivity.
Qed.

(** X14. The sort by index is stable: among items with integer indices,
    those that share an index come out in the order in which they went
    in. *)
Theorem sort_by_index_stable items sorted z :
  forallb int_indexed items = true ->
  py_sort_by_index (JArr items) = Ok (JArr sorted) ->
  filter (fun item => index_of item =? z) sorted
  = filter (fun item => index_of item =? z) items.
Proof.
  intros Hint Hsort. rewrite (py_sort_by_index_int _ Hint) in Hsort.
  injection Hsort as <-. unfold sorted_by_index.
  rewrite filter_map_snd.
  - rewrite filter_isort, <- filter_map_snd by apply keyed_fst.
    now rewrite map_snd_keyed.
  - eapply Permutation_Forall; [apply Permutation_sym, isort_perm | apply keyed_fst].
Qed.

(** X15. The index of every item is read before anything is compared:
    a list in which some item is an object without [index], the items
    before it having one, makes the sort raise [KeyError] for index,
    also when the list has a single item. *)
Theorem sort_by_index_missing_index before o after keys :
  Res.mapM (fun item => py_getitem item "index") before = Ok keys ->
  lookup "index" o = None ->
  py_sort_by_index (JArr (before ++ JObj o :: after)) = Raise (KeyError "index").
Proof.
  intros Hkeys Hnone. unfold py_sort_by_index.
  assert (H : Res.mapM (fun item => py_getitem item "index")
                (before ++ JObj o :: after) = Raise (KeyError "index")).
  { clear -Hkeys Hnone. revert keys Hkeys.
    induction before as [|b before IH]; intros keys Hkeys.
    - cbn [app Res.mapM py_getitem]. now rewrite Hnone.
    - cbn [app Res.mapM] in *.
      destruct (py_getitem b "index"); cbn [Res.bind] in *; [|discriminate].
      destruct (Res.mapM _ before) eqn:E; cbn [Res.bind] in *; [|discriminate].
      now rewrite (IH _ eq_refl). }
  now rewrite H.
Qed.

(** ** Hex text *)

Lemma hex_digit_inj n m :
  (n < 16)%N -> (m < 16)%N -> hex_digit n = hex_digit m -> n = m.
Proof.
  intros Hn Hm.
  assert (En : In n (map N.of_nat (seq 0 16))).
  { replace n with (N.of_nat (N.to_nat n)) by apply Nnat.N2Nat.id.
    apply in_map, in_seq. lia. }
  assert (Em : In m (map N.of_nat (seq 0 16))).
  { replace m with (N.of_nat (N.to_nat m)) by apply Nnat.N2Nat.id.
    apply in_map, in_seq. lia. }
  clear Hn Hm. cbv [seq map N.of_nat] in En, Em. simpl in En, Em.
  repeat (destruct En as [<-|En]; [|]); try contradiction;
    repeat (destruct Em as [<-|Em]; [|]); try contradiction;
    intros H; first [reflexivity | discriminate H].
Qed.

Lemma to_N_lt x : (Byte.to_N x < 256)%N.
Proof. pose proof (Byte.to_N_bounded x). lia. Qed.

(** X16. The hex text written into [sessionKeyIv], [encryptedSessionKey]
    and [encryptedRequestHash] has two digits for every byte, and two
    byte strings with the same hex text are equal. *)
Theorem hex_of_bytes_unambiguous b :
  String.length (hex_of_bytes b) = (2 * List.length b)%nat /\
  forall b', hex_of_bytes b = hex_of_bytes b' -> b = b'.
Proof.
  split.
  - induction b as [|x b IH]; [reflexivity|]. cbn [hex_of_bytes String.length List.length].
    rewrite IH. lia.
  - induction b as [|x b IH]; intros [|y b'] H; try discriminate H; [reflexivity|].
    cbn [hex_of_bytes] in H. injection H as Hhi Hlo Hrest.
    pose proof (to_N_lt x) as Bx. pose proof (to_N_lt y) as By.
    apply hex_digit_inj in Hhi;
      [| apply N.Div0.div_lt_upper_bound; lia | apply N.Div0.div_lt_upper_bound; lia].
    apply hex_digit_inj in Hlo; [| apply N.mod_lt; lia | apply N.mod_lt; lia].
    f_equal; [|now apply IH].
    assert (Hxy : Byte.to_N x = Byte.to_N y).
    { rewrite (N.div_mod (Byte.to_N x) 16), (N.div_mod (Byte.to_N y) 16) by lia.
      now rewrite Hhi, Hlo. }
    apply (f_equal Byte.of_N) in Hxy. rewrite !Byte.of_to_N in Hxy.
    now injection Hxy.
Qed.

(** ** The signer on a text that is not a request *)

Section BadText.
Context {crypto : Crypto} {jsonm : JsonModule}.

(** X17. [generate_client_signature] parses the text before anything
    else: a text that does not parse raises the parser's exception, and a
    document that cannot be searched for params (a number, a boolean,
    null) raises [TypeError]; in both cases nothing is logged and the
    instance is unchanged.  A document that can be searched and has no
    params (an object without the key, but also an array or a string)
    gives None after two error lines. *)
Theorem generate_client_signature_bad_text input_json_str worker private_key
    session_key session_iv encrypted_session_key data_key data_iv (w : world) :
  let run :=
    generate_client_signature input_json_str worker private_key session_key
      session_iv encrypted_session_key data_key data_iv w in
  (forall e, json_loads input_json_str = Raise e -> run = (Raise e, w))
  /\
  (forall doc e,
      json_loads input_json_str = Ok doc ->
      py_contains "params" doc = Raise e ->
      run = (Raise e, w))
  /\
  (forall doc,
      json_loads input_json_str = Ok doc ->
      py_contains "params" doc = Ok false ->
      run = (Ok None,
             {| self := self w;
                trace := trace w
                  ++ [Log ERROR
                        "ERROR: Worker Order Submit Json does not have the required params"
                        [];
                      Log ERROR "ERROR: Signing the request failed" []] |})).
Proof.
  cbv zeta. unfold generate_client_signature, payload_json_check.
  split; [|split].
  - intros e He.
    erewrite bind_raise; [reflexivity|]. now rewrite (bind_lift_raise _ _ He).
  - intros doc e Hdoc He.
    erewrite bind_raise; [reflexivity|].
    now rewrite (bind_lift_ok _ _ Hdoc), (bind_lift_raise _ _ He).
  - intros doc Hdoc Hno.
    erewrite bind_ok.
    2:{ rewrite (bind_lift_ok _ _ Hdoc), (bind_lift_ok _ _ Hno). cbn [negb].
        rewrite bind_emit. reflexivity. }
    cbn [negb]. rewrite bind_emit. unfold ret. cbn [self trace].
    now rewrite <- app_assoc.
Qed.
End BadText.

Lemma sort_by_index_stable_witness :
  filter (fun item => index_of item =? 1)
    [item 1 "a" "" ""; item 1 "b" "" ""; item 2 "c" "" ""]
  = filter (fun item => index_of item =? 1)
      [item 2 "c" "" ""; item 1 "a" "" ""; item 1 "b" "" ""].
Proof.
  apply (@sort_by_index_stable
           [item 2 "c" "" ""; item 1 "a" "" ""; item 1 "b" "" ""]
           [item 1 "a" "" ""; item 1 "b" "" ""; item 2 "c" "" ""] 1).
  - reflexivity.
  - reflexivity.
Defined.

Lemma sort_by_index_missing_index_witness :
  py_sort_by_index (JArr ([item 1 "a" "" ""] ++ JObj bare_item :: []))
  = Raise (KeyError "index")
  /\
  py_sort_by_index (JArr ([] ++ JObj bare_item :: [])) = Raise (KeyError "index").
Proof.
  split.
  - eapply sort_by_index_missing_index; reflexivity.
  - eapply sort_by_index_missing_index; reflexivity.
Defined.

Lemma hex_of_bytes_unambiguous_witness :
  String.length (hex_of_bytes toy_session_iv) = 2%nat /\
  toy_session_iv = [x49].
Proof.
  destruct (hex_of_bytes_unambiguous toy_session_iv) as [Hlen Hinj].
  split.
  - exact Hlen.
  - apply Hinj. reflexivity.
Defined.

Lemma generate_client_signature_bad_text_witness :
  @generate_client_signature toy_crypto three_responses "unknown" toy_worker
    "alice" toy_session_key toy_session_iv toy_encrypted_session_key None None
    toy_world
  = (Raise JSONDecodeError, toy_world)
  /\
  @generate_client_signature toy_crypto (loads_as (JNum 7)) "7" toy_worker
    "alice" toy_session_key toy_session_iv toy_encrypted_session_key None None
    toy_world
  = (Raise TypeError, toy_world)
  /\
  @generate_client_signature toy_crypto (loads_as (JArr [JStr "method"]))
    "request" toy_worker "alice" toy_session_key toy_session_iv
    toy_encrypted_session_key None None toy_world
  = (Ok None,
     {| self := self toy_world;
        trace := [Log ERROR
                    "ERROR: Worker Order Submit Json does not have the required params"
                    [];
                  Log ERROR "ERROR: Signing the request failed" []] |}).
Proof.
  split; [|split].
  - apply (@generate_client_signature_bad_text toy_crypto three_responses).
    reflexivity.
  - eapply (@generate_client_signature_bad_text toy_crypto (loads_as (JNum 7)));
      reflexivity.
  - eapply (@generate_client_signature_bad_text toy_crypto
              (loads_as (JArr [JStr "method"]))); reflexivity.
Defined.

(** ** Edges of the validator and of the error check *)

Section ValidatorEdges.
Context {crypto : Crypto} {jsonm : JsonModule}.

(** X18. The validator looks at [inData] only when none of the five
    mandatory fields is missing.  When one is missing it answers false
    with one line per missing field, whatever [inData] holds; when none
    is missing and [inData] cannot be iterated (null, a number, a
    boolean), the exception of the iteration is the outcome and nothing
    is logged. *)
Theorem payload_json_check_in_data_last json_data (w : world) o p :
  json_loads json_data = Ok (JObj o) ->
  lookup "params" o = Some (JObj p) ->
  (missing_params p <> [] ->
   payload_json_check json_data w
   = (Ok false,
      {| self := self w;
         trace := trace w ++ map missing_param_log (missing_params p) |}))
  /\
  (forall v e,
      missing_params p = [] ->
      lookup "inData" p = Some v ->
      py_iter v = Raise e ->
      payload_json_check json_data w = (Raise e, w)).
Proof.
  intros Hload Hparams.
  assert (Hstart : forall k : json -> M bool,
             bind (lift (json_loads json_data))
               (fun data =>
                  bind (lift (py_contains "params" data))
                    (fun has_params =>
                       if negb has_params
                       then bind (emit (Log ERROR
                              "ERROR: Worker Order Submit Json does not have the required params"
                              [])) (fun _ => ret false)
                       else bind (lift (py_getitem data "params")) k)) w
             = k (JObj p) w).
  { intros k. rewrite (bind_lift_ok _ _ Hload).
    rewrite (bind_lift_ok _ _ (a := true)) by (simpl; now rewrite Hparams).
    cbn [negb]. now rewrite (bind_lift_ok _ _ (a := JObj p)) by (simpl; now rewrite Hparams). }
  unfold payload_json_check. rewrite Hstart.
  rewrite (bind_ok _ _ _ (check_params_run param_pool p true w)). cbn [andb].
  split.
  - intros Hmiss.
    destruct (forallb (fun k => present k p) param_pool) eqn:Hall.
    + apply missing_params_nil in Hall. contradiction.
    + reflexivity.
  - intros v e Hnone Hin Hiter.
    apply missing_params_nil in Hnone as Hall. rewrite Hall.
    fold (missing_params p). rewrite Hnone. cbn [map].
    rewrite (bind_lift_ok _ _ (a := v)) by (simpl; now rewrite Hin).
    rewrite (bind_lift_raise _ _ Hiter). rewrite app_nil_r. now destruct w.
Qed.
End ValidatorEdges.

Section CodeEdges.
Context {crypto : Crypto} {jsonm : JsonModule}.

(** X19. Only a negative [code] stops the verification.  With a [code]
    that is zero or positive the response is verified as if it had none;
    a [code] that is neither a number nor a boolean raises [TypeError]
    from the comparison with zero, before the digest is computed. *)
Theorem verify_signature_code response_str worker (w : world) o r :
  json_loads response_str = Ok (JObj o) ->
  HashingAlgorithm (tcs_worker (self w)) = hashing_algorithm worker ->
  SigningAlgorithm (tcs_worker (self w)) = signing_algorithm worker ->
  lookup "error" o = None ->
  lookup "result" o = Some (JObj r) ->
  (forall code,
      lookup "code" r = Some (JNum code) -> 0 <= code ->
      verify_signature response_str worker w
      = match response_final_hash (JObj r) with
        | Ok sig_hash => check_signature worker (fst sig_hash) (snd sig_hash) w
        | Raise e => (Raise e, w)
        end)
  /\
  (forall v,
      lookup "code" r = Some v -> num_key v = None ->
      verify_signature response_str worker w = (Raise TypeError, w)).
Proof.
  intros Hload Hh Hs Herr Hres. split.
  - intros code Hcode Hpos. apply verify_signature_after_checks.
    exists o. repeat (split; [assumption|]).
    unfold negative_code. cbn [py_keys Res.bind py_getitem].
    rewrite existsb_keys, Hcode. cbn [Res.bind py_lt_zero].
    f_equal. apply Z.ltb_ge. exact Hpos.
  - intros v Hcode Hv. unfold verify_signature.
    rewrite (bind_lift_ok _ _ Hload), bind_get_self.
    apply String.eqb_eq in Hh, Hs. rewrite Hh, Hs. cbn [negb].
    rewrite (bind_lift_ok _ _ (a := map fst o)) by reflexivity.
    rewrite existsb_keys, Herr.
    rewrite (bind_lift_ok _ _ (a := JObj r)) by (simpl; now rewrite Hres).
    apply bind_lift_raise.
    unfold negative_code. cbn [py_keys Res.bind py_getitem].
    rewrite existsb_keys, Hcode. cbn [Res.bind].
    destruct v; try discriminate Hv; reflexivity.
Qed.
End CodeEdges.

Lemma payload_json_check_in_data_last_witness :
  @payload_json_check toy_crypto (loads_as incomplete_request_doc) "request" toy_world
  = (Ok false,
     {| self := self toy_world;
        trace := [missing_param_log "workerId"; missing_param_log "requesterId"] |})
  /\
  @payload_json_check toy_crypto (loads_as (request_doc JNull)) "request" toy_world
  = (Raise TypeError, toy_world).
Proof.
  split.
  - edestruct (@payload_json_check_in_data_last toy_crypto
                 (loads_as incomplete_request_doc) "request" toy_world)
      as [Hmissing _]; [reflexivity | reflexivity |].
    etransitivity; [apply Hmissing; vm_compute; discriminate | reflexivity].
  - edestruct (@payload_json_check_in_data_last toy_crypto
                 (loads_as (request_doc JNull)) "request" toy_world)
      as [_ Hiter]; [reflexivity | reflexivity |].
    eapply Hiter; reflexivity.
Defined.

Lemma verify_signature_code_witness :
  fst (@verify_signature toy_crypto
         (loads_as (JObj (reply (("code", JNum 0)
                                   :: result_fields [item 1 "x" "" ""; item 2 "y" "" ""]))))
         "response" toy_worker toy_world)
  = Ok PASSED
  /\
  @verify_signature toy_crypto
    (loads_as (JObj (reply (("code", JStr "0")
                              :: result_fields [item 1 "x" "" ""; item 2 "y" "" ""]))))
    "response" toy_worker toy_world
  = (Raise TypeError, toy_world).
Proof.
  split.
  - edestruct (@verify_signature_code toy_crypto
                 (loads_as (JObj (reply (("code", JNum 0)
                                           :: result_fields
                                                [item 1 "x" "" ""; item 2 "y" "" ""]))))
                 "response" toy_worker toy_world)
      as [Hcode _]; [reflexivity | reflexivity | reflexivity | reflexivity
                     | reflexivity |].
    rewrite (Hcode 0 eq_refl); [reflexivity | lia].
  - edestruct (@verify_signature_code toy_crypto
                 (loads_as (JObj (reply (("code", JStr "0")
                                           :: result_fields
                                                [item 1 "x" "" ""; item 2 "y" "" ""]))))
                 "response" toy_worker toy_world)
      as [_ Hcode]; [reflexivity | reflexivity | reflexivity | reflexivity
                     | reflexivity |].
    eapply Hcode; reflexivity.
Defined.

(** ** Strings that cannot be encoded, and a digest that cannot be computed *)

Lemma has_surrogate_lone_surrogate :
  has_surrogate lone_surrogate = true /\
  str_value lone_surrogate = JSur lone_surrogate /\
  py_encode (JSur lone_surrogate) = Raise UnicodeEncodeError.
Proof. repeat split. Qed.

(** A request whose only input item has a lone surrogate as [data], with
    the selector "-": it passes validation with matching algorithms, and
    the encryptor raises [UnicodeEncodeError] right after its opening
    line, so no request is signed. *)
Lemma lone_surrogate_data_raises :
  @payload_json_check toy_crypto
    (loads_as (request_doc (JArr [item_with_surrogate]))) "request" toy_world
  = (Ok true, toy_world) /\
  @generate_client_signature toy_crypto
    (loads_as (request_doc (JArr [item_with_surrogate]))) "request" toy_worker
    "alice" toy_session_key toy_session_iv toy_encrypted_session_key None None
    toy_world
  = (Raise UnicodeEncodeError,
     with_event toy_world (Log INFO "Encrypting Workorder Data" [])) /\
  encryptable item_with_surrogate = false /\
  full_item item_with_surrogate = false.
Proof. repeat split. Qed.

(** A response whose [workerNonce] is a lone surrogate, everything else
    as in the signed response: [verify_signature] raises
    [UnicodeEncodeError]; the response is not [answerable]. *)
Lemma lone_surrogate_nonce_raises :
  @verify_signature toy_crypto (loads_as response_with_surrogate_nonce)
    "response" toy_worker toy_world
  = (Raise UnicodeEncodeError, toy_world) /\
  answerable response_with_surrogate_nonce = false.
Proof. repeat split. Qed.

